(** * canlin.message: CAN and LIN message objects

    A shallow embedding of [message.py]: the classes [Message] (CAN frames),
    [LinMessage] (LIN frames) and the properties of their constructors,
    validation and comparison methods. *)

From Stdlib Require Import ZArith List Bool String Strings.Byte SpecFloat DecimalString Lia.
From stdpp Require Import gmap strings.
Import ListNotations.
Local Open Scope Z_scope.

(** ** Python values *)

(** A [bytearray] is read as the sequence of bytes it holds. *)
Abbreviation bytearray := (list byte).

#[global] Instance byte_eq_decision : EqDecision byte := byte_eq_dec.

(** [len(x)] of a sequence, as a Python [int]. *)
Definition len {A} (l : list A) : Z := Z.of_nat (length l).

(** [[x] * n]: a count that is zero or negative gives the empty list. *)
Definition times {A} (x : A) (n : Z) : list A := repeat x (Z.to_nat n).

(** Python's [float] is IEEE 754 binary64. *)
Module Float.
Definition t := spec_float.
Definition prec : Z := 53.
Definition emax : Z := 1024.

Definition zero : t := S754_zero false.
Definition sub : t -> t -> t := SFsub prec emax.
Definition abs : t -> t := SFabs.
Definition ltb : t -> t -> bool := SFltb.
Definition leb : t -> t -> bool := SFleb.

Definition isinf (x : t) : bool :=
  match x with S754_infinity _ => true | _ => false end.
Definition isnan (x : t) : bool :=
  match x with S754_nan => true | _ => false end.

(** The doubles nearest to the decimal literals [1.0e-6], [2e-6] and
    [1e-5]: 0x1.0c6f7a0b5ed8dp-20, 0x1.0c6f7a0b5ed8dp-19 and
    0x1.4f8b588e368f1p-17. *)
Definition lit_1e_6 : t := S754_finite false 0x10C6F7A0B5ED8D (-72).
Definition lit_2e_6 : t := S754_finite false 0x10C6F7A0B5ED8D (-71).
Definition lit_1e_5 : t := S754_finite false 0x14F8B588E368F1 (-69).
End Float.

(** ** Exceptions and results *)

(** What the builtins [bytearray(x)] and [len(x)] can raise: [TypeError] on
    a value of the wrong kind (a [str], a [float], a list holding a
    non-integer); [ValueError] on an integer that is no byte (outside
    [range(0, 256)]), on a negative count and on a negative length;
    [OverflowError] on an integer that does not fit the interpreter's index
    type; [MemoryError] when the bytes asked for cannot be allocated. *)
Inductive builtin_exn :=
| BuiltinTypeError
| BuiltinValueError
| BuiltinOverflowError
| BuiltinMemoryError.

(** [sys.maxsize], the largest value of the interpreter's index type, on a
    64-bit build. *)
Definition maxsize : Z := 2 ^ 63 - 1.

Inductive result (E A : Type) :=
| Ok (a : A)
| Raise (e : E).
Arguments Ok {E A} a.
Arguments Raise {E A} e.

#[global] Instance result_bind {E} : MBind (result E) := fun A B k r =>
  match r with
  | Ok a => k a
  | Raise e => Raise e
  end.

(** [if c: raise e] *)
Definition raise_if {E} (c : bool) (e : E) : result E unit :=
  if c then Raise e else Ok tt.

(** The payload argument of both constructors, [typechecking.CanData]:
    the cases are told apart by what [isinstance(data, bytearray)] and
    [bytearray(data)] do with the value. *)
Inductive CanData :=
| data_bytearray (b : bytearray)   (* a bytearray *)
| data_bytes (b : list byte)       (* bytes, or another buffer of bytes *)
| data_ints (l : list Z)           (* an iterable of integers *)
| data_int (n : Z) (allocates : bool)
    (* an integer, read by bytearray() as a count of zero bytes;
       [allocates] tells whether the interpreter has the memory for them *)
| data_invalid.                    (* a value bytearray() cannot convert *)

Definition byte_of_int (z : Z) : option byte :=
  if (0 <=? z) && (z <? 256) then Byte.of_N (Z.to_N z) else None.

Fixpoint bytes_of_ints (l : list Z) : option (list byte) :=
  match l with
  | [] => Some []
  | z :: l' =>
      match byte_of_int z, bytes_of_ints l' with
      | Some b, Some bs => Some (b :: bs)
      | _, _ => None
      end
  end.

(** The builtin [bytearray(data)]. An integer count is first converted to
    the index type ([OverflowError] when it does not fit), then refused when
    negative ([ValueError]), then, unless it is zero, allocated and filled
    with zeros. *)
Definition bytearray_of (data : CanData) : result builtin_exn bytearray :=
  match data with
  | data_bytearray b => Ok b
  | data_bytes b => Ok b
  | data_ints l =>
      match bytes_of_ints l with
      | Some b => Ok b
      | None => Raise BuiltinValueError
      end
  | data_int n allocates =>
      if (n <? - maxsize - 1) || (n >? maxsize) then
        Raise BuiltinOverflowError
      else if n <? 0 then Raise BuiltinValueError
      else if (n =? 0) || allocates then Ok (times x00 n)
      else Raise BuiltinMemoryError
  | data_invalid => Raise BuiltinTypeError
  end.

(** Object identity: instances live in a store and are named by a reference;
    [a is b] compares the references. *)
Definition ref := positive.
Definition is_ (a b : ref) : bool := bool_decide (a = b).

(** [object.__eq__], inherited by every class that defines no [__eq__] of
    its own, and the [==] operator built on the two operands' methods. *)
Inductive eq_result := EqBool (b : bool) | NotImplemented.

Definition object___eq__ (a b : ref) : eq_result :=
  if is_ a b then EqBool true else NotImplemented.

Definition py_eq (lhs___eq__ rhs___eq__ : ref -> ref -> eq_result) (a b : ref) : bool :=
  match lhs___eq__ a b with
  | EqBool r => r
  | NotImplemented =>
      match rhs___eq__ b a with
      | EqBool r => r
      | NotImplemented => is_ a b
      end
  end.

(** ** class Message *)

Module Message.

(** [typechecking.Channel]: an integer or a string. *)
Inductive Channel := channel_int (n : Z) | channel_str (s : string).

#[global] Instance Channel_eq_decision : EqDecision Channel.
Proof. solve_decision. Defined.

(** The attributes of [__slots__]. *)
Record t := mk {
  timestamp : Float.t;
  id : Z;
  is_extended_id : bool;
  is_remote_frame : bool;
  is_error_frame : bool;
  channel : option Channel;
  dlc : Z;
  data : bytearray;
  is_fd : bool;
  is_rx : bool;
  bitrate_switch : bool;
  error_state_indicator : bool
}.

(** The rules of [_check], in the order they are tested. *)
Inductive rule :=
| timestamp_negative
| timestamp_infinite
| timestamp_nan
| remote_and_error
| remote_fd
| id_negative
| extended_id_range
| normal_id_range
| dlc_negative
| dlc_fd_range
| dlc_classic_range
| remote_with_data
| dlc_mismatch
| bitrate_switch_without_fd
| error_state_indicator_without_fd.

Definition str_int (z : Z) : string := NilZero.string_of_int (Z.to_int z).

(** The text of the [ValueError] raised for each rule. *)
Definition message (self : t) (r : rule) : string :=
  match r with
  | timestamp_negative => "the timestamp may not be negative"
  | timestamp_infinite => "the timestamp may not be infinite"
  | timestamp_nan => "the timestamp may not be NaN"
  | remote_and_error =>
      "a message cannot be a remote and an error frame at the sane time"
  | remote_fd => "CAN FD does not support remote frames"
  | id_negative => "arbitration IDs may not be negative"
  | extended_id_range => "Extended arbitration IDs must be less than 2^29"
  | normal_id_range => "Normal arbitration IDs must be less than 2^11"
  | dlc_negative => "DLC may not be negative"
  | dlc_fd_range =>
      "DLC was " ++ str_int (dlc self)
        ++ " but it should be <= 64 for CAN FD frames"
  | dlc_classic_range =>
      "DLC was " ++ str_int (dlc self)
        ++ " but it should be <= 8 for normal CAN frames"
  | remote_with_data => "remote frames may not carry any data"
  | dlc_mismatch =>
      "the DLC and the length of the data must match up for non remote frames"
  | bitrate_switch_without_fd =>
      "bitrate switch is only allowed for CAN FD frames"
  | error_state_indicator_without_fd =>
      "error state indicator is only allowed for CAN FD frames"
  end%string.

(** What the constructor can raise:
    - [ConversionError]: the [TypeError] of [bytearray(data)], caught and
      raised again as a [TypeError] naming the value and its type;
    - [ValidationError r]: the [ValueError] that [_check] raises for the
      rule [r], with the text [message self r];
    - [Uncaught e]: an exception of [bytearray(data)] that the [except
      TypeError] clause lets through. *)
Inductive exn :=
| ConversionError
| ValidationError (r : rule)
| Uncaught (e : builtin_exn).

(** The Python class of each of them. *)
Inductive exn_class :=
| class_TypeError
| class_ValueError
| class_OverflowError
| class_MemoryError.

Definition class_of (e : exn) : exn_class :=
  match e with
  | ConversionError => class_TypeError
  | ValidationError _ => class_ValueError
  | Uncaught BuiltinTypeError => class_TypeError
  | Uncaught BuiltinValueError => class_ValueError
  | Uncaught BuiltinOverflowError => class_OverflowError
  | Uncaught BuiltinMemoryError => class_MemoryError
  end.

Definition _check (self : t) : result exn unit :=
  raise_if (Float.ltb (timestamp self) Float.zero)
           (ValidationError timestamp_negative) ;;
  raise_if (Float.isinf (timestamp self))
           (ValidationError timestamp_infinite) ;;
  raise_if (Float.isnan (timestamp self))
           (ValidationError timestamp_nan) ;;
  (if is_remote_frame self then
     raise_if (is_error_frame self) (ValidationError remote_and_error) ;;
     raise_if (is_fd self) (ValidationError remote_fd)
   else Ok tt) ;;
  raise_if (id self <? 0) (ValidationError id_negative) ;;
  (if is_extended_id self then
     raise_if (id self >=? 0x20000000) (ValidationError extended_id_range)
   else
     raise_if (id self >=? 0x800) (ValidationError normal_id_range)) ;;
  raise_if (dlc self <? 0) (ValidationError dlc_negative) ;;
  (if is_fd self then
     raise_if (dlc self >? 64) (ValidationError dlc_fd_range)
   else
     raise_if (dlc self >? 8) (ValidationError dlc_classic_range)) ;;
  (if is_remote_frame self then
     raise_if (negb (bool_decide (data self = [])))
              (ValidationError remote_with_data)
   else
     raise_if (negb (dlc self =? len (data self)))
              (ValidationError dlc_mismatch)) ;;
  (if negb (is_fd self) then
     raise_if (bitrate_switch self)
              (ValidationError bitrate_switch_without_fd) ;;
     raise_if (error_state_indicator self)
              (ValidationError error_state_indicator_without_fd)
   else Ok tt).

(** Lines 91-100: the payload that is stored. *)
Definition init_data (data : option CanData) (is_remote_frame : bool)
  : result exn bytearray :=
  match data with
  | None => Ok []
  | Some d =>
      if is_remote_frame then Ok []
      else
        match d with
        | data_bytearray b => Ok b
        | _ =>
            match bytearray_of d with
            | Ok b => Ok b
            | Raise BuiltinTypeError => Raise ConversionError
            | Raise e => Raise (Uncaught e)
            end
        end
  end.

(** [Message.__init__]; an omitted [dlc] or [data] is [None], the other
    defaults are those of [with_defaults]. *)
Definition __init__
    (timestamp : Float.t) (id : Z) (is_extended_id : bool)
    (is_remote_frame : bool) (is_error_frame : bool)
    (channel : option Channel) (dlc : option Z) (data : option CanData)
    (is_fd : bool) (is_rx : bool) (bitrate_switch : bool)
    (error_state_indicator : bool) (check : bool) : result exn t :=
  self_data ← init_data data is_remote_frame;
  let self_dlc := match dlc with
                  | None => len self_data
                  | Some d => d
                  end in
  let self := mk timestamp id is_extended_id is_remote_frame is_error_frame
                 channel self_dlc self_data is_fd is_rx bitrate_switch
                 error_state_indicator in
  (if check then _check self else Ok tt) ;;
  Ok self.

(** The constructor called with keyword defaults only, but for [id],
    [dlc], [data] and [check]. *)
Definition with_defaults (id : Z) (dlc : option Z) (data : option CanData)
    (check : bool) : result exn t :=
  __init__ Float.zero id true false false None dlc data false true false
           false check.

Definition __len__ (self : t) : Z := dlc self.

(** The builtin [len(self)]: it calls [__len__] and takes the result as a
    length, raising [ValueError] when it is negative and [OverflowError]
    when it does not fit the index type. *)
Definition builtin_len (self : t) : result builtin_exn Z :=
  let n := __len__ self in
  if n <? 0 then Raise BuiltinValueError
  else if n >? maxsize then Raise BuiltinOverflowError
  else Ok n.

Definition __bytes__ (self : t) : list byte := data self.

(** *** Instances *)

(** The instances that exist, by reference. *)
Abbreviation store := (gmap ref t).

(** The call [Message(...)]: a new instance is made and initialised. *)
Definition new (σ : store)
    (timestamp : Float.t) (id : Z) (is_extended_id : bool)
    (is_remote_frame : bool) (is_error_frame : bool)
    (channel : option Channel) (dlc : option Z) (data : option CanData)
    (is_fd : bool) (is_rx : bool) (bitrate_switch : bool)
    (error_state_indicator : bool) (check : bool)
  : result exn (ref * store) :=
  self ← __init__ timestamp id is_extended_id is_remote_frame
                  is_error_frame channel dlc data is_fd is_rx
                  bitrate_switch error_state_indicator check;
  let r := fresh (dom σ) in
  Ok (r, <[r := self]> σ).

(** The class body defines no [__eq__] (and no [__hash__]): the method
    found on an instance is the one of [object], and [a == b] on two
    instances is decided by [py_eq] from it. *)
Definition __eq__ : ref -> ref -> eq_result := object___eq__.

Definition eq (a b : ref) : bool := py_eq __eq__ __eq__ a b.

(** The default of [timestamp_delta]. *)
Definition default_timestamp_delta : option Float.t := Some Float.lit_1e_6.

(** The comparison by value of [equals], on the attributes of the two
    instances. *)
Definition equals_by_value (self other : t)
    (timestamp_delta : option Float.t)
    (check_channel check_direction : bool) : bool :=
  (match timestamp_delta with
   | None => true
   | Some delta =>
       Float.leb (Float.abs (Float.sub (timestamp self) (timestamp other)))
                 delta
   end)
  && (bool_decide (is_rx self = is_rx other) || negb check_direction)
  && bool_decide (id self = id other)
  && bool_decide (is_extended_id self = is_extended_id other)
  && bool_decide (dlc self = dlc other)
  && bool_decide (data self = data other)
  && bool_decide (is_remote_frame self = is_remote_frame other)
  && bool_decide (is_error_frame self = is_error_frame other)
  && (bool_decide (channel self = channel other) || negb check_channel)
  && bool_decide (is_fd self = is_fd other)
  && bool_decide (bitrate_switch self = bitrate_switch other)
  && bool_decide (error_state_indicator self = error_state_indicator other).

(** [self.equals(other, timestamp_delta, check_channel, check_direction)];
    [None] when a reference names no instance. *)
Definition equals (σ : store) (self other : ref)
    (timestamp_delta : option Float.t)
    (check_channel check_direction : bool) : option bool :=
  s ← σ !! self;
  o ← σ !! other;
  Some (is_ self other
        || equals_by_value s o timestamp_delta check_channel
                           check_direction).

(** *** Copies *)

(** [Message.__copy__]: the constructor is called on the attributes of
    [self], with [dlc] and [data] given and [check] left at its default.
    [self.data] is a bytearray, so the constructor takes it as it is. *)
Definition __copy__ (self : t) : result exn t :=
  __init__ (timestamp self) (id self) (is_extended_id self)
           (is_remote_frame self) (is_error_frame self) (channel self)
           (Some (dlc self)) (Some (data_bytearray (data self)))
           (is_fd self) (is_rx self) (bitrate_switch self)
           (error_state_indicator self) false.

(** [Message.__deepcopy__]: as [__copy__], on [deepcopy(self.channel, memo)]
    and [deepcopy(self.data, memo)]. The deep copy of an integer or string
    channel and of a bytearray has the value of the original, which is all
    that attributes held by value record. *)
Definition __deepcopy__ (self : t) : result exn t :=
  __init__ (timestamp self) (id self) (is_extended_id self)
           (is_remote_frame self) (is_error_frame self) (channel self)
           (Some (dlc self)) (Some (data_bytearray (data self)))
           (is_fd self) (is_rx self) (bitrate_switch self)
           (error_state_indicator self) false.

(** [copy.copy(x)] on an instance: [x.__copy__()] makes a new instance. *)
Definition copy (σ : store) (x : ref) : option (result exn (ref * store)) :=
  s ← σ !! x;
  Some (new σ (timestamp s) (id s) (is_extended_id s) (is_remote_frame s)
            (is_error_frame s) (channel s) (Some (dlc s))
            (Some (data_bytearray (data s))) (is_fd s) (is_rx s)
            (bitrate_switch s) (error_state_indicator s) false).

End Message.

(** ** class LinMessage *)

Module LinMessage.

(** The attributes, in the order of [__slots__]. [info] holds [None] or a
    [LinMessageInfo] structure; that class defines no [__eq__], so two such
    values are compared as references. *)
Record t := mk {
  id : Z;
  data : bytearray;
  dlc : Z;
  flags : Z;
  crc : option Z;
  info : option ref;
  timestamp : option Float.t
}.

Inductive slot :=
| slot_id
| slot_data
| slot_dlc
| slot_flags
| slot_crc
| slot_info
| slot_timestamp.

Definition __slots__ : list slot :=
  [slot_id; slot_data; slot_dlc; slot_flags; slot_crc; slot_info;
   slot_timestamp].

Definition _repr_slots : list slot := __slots__.

(** [__slots__[:-1]] *)
Definition _eq_slots : list slot := removelast __slots__.

(** Lines 357-372: the [dlc] of a payload of [n] bytes. *)
Definition dlc_of_len (n : Z) : Z :=
  if n <=? 8 then n
  else if n <=? 12 then 12
  else if n <=? 16 then 16
  else if n <=? 20 then 20
  else if n <=? 24 then 24
  else if n <=? 32 then 32
  else if n <=? 48 then 48
  else 64.

(** [data.extend([0] * (dlc - len(data)))] *)
Definition extend_zeros (data : bytearray) (dlc : Z) : bytearray :=
  data ++ times x00 (dlc - len data).

(** [LinMessage.__init__]; an omitted [dlc] is [None]. The exceptions of
    [bytearray(data)] are not caught. *)
Definition __init__ (id : Z) (data : CanData) (dlc : option Z) (flags : Z)
    (timestamp : option Float.t) (crc : option Z) (info : option ref)
  : result builtin_exn t :=
  data ← bytearray_of data;
  let '(dlc, data) :=
    match dlc with
    | None =>
        let dlc := dlc_of_len (len data) in
        (dlc, if dlc >? len data then extend_zeros data dlc else data)
    | Some dlc =>
        (dlc, if dlc <=? 8 then extend_zeros data dlc else data)
    end in
  Ok (mk id data dlc flags crc info timestamp).

(** The constructor called as [LinMessage(id, data, dlc)]. *)
Definition with_defaults (id : Z) (data : CanData) (dlc : option Z)
  : result builtin_exn t :=
  __init__ id data dlc 0 None None None.

(** [==] on two optional values of a type compared by [eqb]. *)
Definition option_eqb {A} (eqb : A -> A -> bool) (a b : option A) : bool :=
  match a, b with
  | None, None => true
  | Some x, Some y => eqb x y
  | _, _ => false
  end.

(** [getattr(self, slot) == getattr(other, slot)] *)
Definition slot_eq (s : slot) (self other : t) : bool :=
  match s with
  | slot_id => id self =? id other
  | slot_data => bool_decide (data self = data other)
  | slot_dlc => dlc self =? dlc other
  | slot_flags => flags self =? flags other
  | slot_crc => option_eqb Z.eqb (crc self) (crc other)
  | slot_info => option_eqb is_ (info self) (info other)
  | slot_timestamp => option_eqb SFeqb (timestamp self) (timestamp other)
  end.

(** The right operand of [==]: a [LinMessage] or an object of another
    class. *)
Inductive operand := instance (m : t) | not_instance.

Definition __eq__ (self : t) (other : operand) : eq_result :=
  match other with
  | instance other => EqBool (forallb (fun s => slot_eq s self other) _eq_slots)
  | not_instance => NotImplemented
  end.

(** *** Access by position *)

(** The values the slots hold. *)
Inductive value :=
| v_none
| v_int (z : Z)
| v_float (f : Float.t)
| v_bytearray (b : bytearray)
| v_ref (r : ref).

Definition value_of_option {A} (inj : A -> value) (o : option A) : value :=
  match o with
  | None => v_none
  | Some a => inj a
  end.

(** [getattr(self, slot)] *)
Definition getattr (self : t) (s : slot) : value :=
  match s with
  | slot_id => v_int (id self)
  | slot_data => v_bytearray (data self)
  | slot_dlc => v_int (dlc self)
  | slot_flags => v_int (flags self)
  | slot_crc => value_of_option v_int (crc self)
  | slot_info => value_of_option v_ref (info self)
  | slot_timestamp => value_of_option v_float (timestamp self)
  end.

(** [setattr(self, slot, val)], for a value of the kind the slot holds
    here: [None] stands for an assignment of any other value, which the
    typed record does not represent. *)
Definition setattr (self : t) (s : slot) (val : value) : option t :=
  match s, val with
  | slot_id, v_int z =>
      Some (mk z (data self) (dlc self) (flags self) (crc self) (info self)
              (timestamp self))
  | slot_data, v_bytearray b =>
      Some (mk (id self) b (dlc self) (flags self) (crc self) (info self)
              (timestamp self))
  | slot_dlc, v_int z =>
      Some (mk (id self) (data self) z (flags self) (crc self) (info self)
              (timestamp self))
  | slot_flags, v_int z =>
      Some (mk (id self) (data self) (dlc self) z (crc self) (info self)
              (timestamp self))
  | slot_crc, v_none =>
      Some (mk (id self) (data self) (dlc self) (flags self) None (info self)
              (timestamp self))
  | slot_crc, v_int z =>
      Some (mk (id self) (data self) (dlc self) (flags self) (Some z)
              (info self) (timestamp self))
  | slot_info, v_none =>
      Some (mk (id self) (data self) (dlc self) (flags self) (crc self) None
              (timestamp self))
  | slot_info, v_ref r =>
      Some (mk (id self) (data self) (dlc self) (flags self) (crc self)
              (Some r) (timestamp self))
  | slot_timestamp, v_none =>
      Some (mk (id self) (data self) (dlc self) (flags self) (crc self)
              (info self) None)
  | slot_timestamp, v_float f =>
      Some (mk (id self) (data self) (dlc self) (flags self) (crc self)
              (info self) (Some f))
  | _, _ => None
  end.

Inductive item_exn := IndexError.

(** [t[index]] on a tuple, for an integer [index]: a negative index counts
    from the end, and an index outside the tuple raises [IndexError]. *)
Definition tuple_getitem {A} (t : list A) (index : Z) : result item_exn A :=
  let i := if index <? 0 then index + len t else index in
  if (0 <=? i) && (i <? len t) then
    match t !! Z.to_nat i with
    | Some x => Ok x
    | None => Raise IndexError
    end
  else Raise IndexError.

Definition __getitem__ (self : t) (index : Z) : result item_exn value :=
  slot ← tuple_getitem __slots__ index;
  Ok (getattr self slot).

Definition __setitem__ (self : t) (index : Z) (val : value)
  : result item_exn (option t) :=
  slot ← tuple_getitem __slots__ index;
  Ok (setattr self slot val).

(** The values [__iter__] yields, in order. *)
Definition __iter__ (self : t) : list value :=
  map (getattr self) __slots__.

(** [self != other] for an operand that is a [LinMessage]:
    [not self == other]. *)
Definition __ne__ (self other : t) : bool :=
  match __eq__ self (instance other) with
  | EqBool b => negb b
  | NotImplemented => true
  end.

End LinMessage.

(** ** Statements about frames *)

(** A timestamp below zero: minus infinity or a negative number. Minus zero
    and NaN are not below zero. *)
Definition negative (x : Float.t) : Prop :=
  match x with
  | S754_infinity true | S754_finite true _ _ => True
  | _ => False
  end.

Definition infinite (x : Float.t) : Prop :=
  match x with S754_infinity _ => True | _ => False end.

Definition not_a_number (x : Float.t) : Prop :=
  match x with S754_nan => True | _ => False end.

(** A frame breaks one of the invariants of the data model. *)
Definition invariant_violated (m : Message.t) : Prop :=
  let rtr := Message.is_remote_frame m in
  let fd := Message.is_fd m in
  negative (Message.timestamp m)
  \/ infinite (Message.timestamp m)
  \/ not_a_number (Message.timestamp m)
  \/ (rtr = true /\ Message.is_error_frame m = true)
  \/ (rtr = true /\ fd = true)
  \/ Message.id m < 0
  \/ (Message.is_extended_id m = true /\ Message.id m >= 2 ^ 29)
  \/ (Message.is_extended_id m = false /\ Message.id m >= 2 ^ 11)
  \/ Message.dlc m < 0
  \/ (fd = false /\ Message.dlc m > 8)
  \/ (fd = true /\ Message.dlc m > 64)
  \/ (rtr = true /\ Message.data m <> [])
  \/ (rtr = false /\ Message.dlc m <> len (Message.data m))
  \/ (fd = false /\ (Message.bitrate_switch m = true
                     \/ Message.error_state_indicator m = true)).

(** A constructor call ends in a [ValidationError]. *)
Definition raises_validation {A} (x : result Message.exn A) : Prop :=
  exists r, x = Raise (Message.ValidationError r).

(** All attributes but the timestamp agree, [channel] and [is_rx] only when
    they are compared. *)
Definition attributes_match (x y : Message.t)
    (check_channel check_direction : bool) : Prop :=
  Message.id x = Message.id y
  /\ Message.is_extended_id x = Message.is_extended_id y
  /\ Message.dlc x = Message.dlc y
  /\ Message.data x = Message.data y
  /\ Message.is_remote_frame x = Message.is_remote_frame y
  /\ Message.is_error_frame x = Message.is_error_frame y
  /\ Message.is_fd x = Message.is_fd y
  /\ Message.bitrate_switch x = Message.bitrate_switch y
  /\ Message.error_state_indicator x = Message.error_state_indicator y
  /\ (check_channel = true -> Message.channel x = Message.channel y)
  /\ (check_direction = true -> Message.is_rx x = Message.is_rx y).

(** The timestamps are within [timestamp_delta] of each other, or are not
    compared. *)
Definition timestamps_match (x y : Message.t)
    (timestamp_delta : option Float.t) : Prop :=
  match timestamp_delta with
  | None => True
  | Some delta =>
      Float.leb
        (Float.abs (Float.sub (Message.timestamp x) (Message.timestamp y)))
        delta = true
  end.

(** [y] is [x] with another timestamp. *)
Definition with_timestamp (x : Message.t) (ts : Float.t) : Message.t :=
  Message.mk ts (Message.id x) (Message.is_extended_id x)
    (Message.is_remote_frame x) (Message.is_error_frame x)
    (Message.channel x) (Message.dlc x) (Message.data x) (Message.is_fd x)
    (Message.is_rx x) (Message.bitrate_switch x)
    (Message.error_state_indicator x).

(** Two frames built with the default attributes, the first at time 0 and
    the second at time 2e-6. *)
Definition frame_at (ts : Float.t) : Message.t :=
  Message.mk ts 0 true false false None 0 [] false true false false.

Definition two_frames : Message.store :=
  <[2%positive := frame_at Float.lit_2e_6]>
    (<[1%positive := frame_at Float.zero]> ∅).

(** ** Statements about LIN messages *)

(** The values a computed [dlc] is drawn from. *)
Definition ladder : list Z :=
  [0; 1; 2; 3; 4; 5; 6; 7; 8; 12; 16; 20; 24; 32; 48; 64].

(** [d] is [n] rounded up to the ladder: the least of its values that is no
    less than [n]. *)
Definition rounds_up_to (n d : Z) : Prop :=
  In d ladder /\ n <= d /\ forall l, In l ladder -> n <= l -> d <= l.

(** [stored] is [input] with zero bytes added on the right, up to exactly [n]
    bytes. *)
Definition zero_padded_to (input stored : list byte) (n : Z) : Prop :=
  (exists k, stored = input ++ repeat x00 k) /\ len stored = n.

(** [m] with another timestamp. *)
Definition lin_with_timestamp (m : LinMessage.t) (ts : option Float.t)
  : LinMessage.t :=
  LinMessage.mk (LinMessage.id m) (LinMessage.data m) (LinMessage.dlc m)
    (LinMessage.flags m) (LinMessage.crc m) (LinMessage.info m) ts.

(** The bytes 1 to 9 of the example payload. *)
Definition one_to_nine : list Z := [1; 2; 3; 4; 5; 6; 7; 8; 9].

(** ** Proof automation *)

(** Closes a disjunction of facts about the attributes from a hypothesis
    that is one of them. *)
Ltac leaf :=
  solve [ assumption | reflexivity | lia | discriminate | contradiction
        | split; [reflexivity
                 | first [assumption | lia | left; assumption
                         | right; assumption]] ].

Ltac pick := first [ leaf | left; leaf | right; pick ].

Ltac cases H :=
  match type of H with
  | _ \/ _ => let H1 := fresh H in destruct H as [H1 | H1]; cases H1
  | _ /\ _ =>
      let H1 := fresh H in let H2 := fresh H in
      destruct H as [H1 H2]; try discriminate H1; cases H2
  | _ => idtac
  end.

(** ** Validation *)

Lemma ltb_zero_negative (x : Float.t) :
  Float.ltb x Float.zero = true <-> negative x.
Proof. destruct x as [[] | [] | | [] m e]; cbn; intuition congruence. Qed.

Lemma isinf_infinite (x : Float.t) : Float.isinf x = true <-> infinite x.
Proof. destruct x; cbn; intuition congruence. Qed.

Lemma isnan_not_a_number (x : Float.t) :
  Float.isnan x = true <-> not_a_number x.
Proof. destruct x; cbn; intuition congruence. Qed.

Lemma raises_raise_if (c : bool) (r : Message.rule) :
  raises_validation (raise_if c (Message.ValidationError r)) <-> c = true.
Proof.
  unfold raises_validation. destruct c; cbn; split.
  - reflexivity.
  - intros _. now exists r.
  - intros [r' H]. discriminate H.
  - discriminate.
Qed.

Lemma raises_raise_if_then {A} (c : bool) (r : Message.rule)
    (k : result Message.exn A) :
  raises_validation (raise_if c (Message.ValidationError r) ;; k)
  <-> c = true \/ raises_validation k.
Proof.
  unfold raises_validation. destruct c; cbn; split.
  - now left.
  - intros _. now exists r.
  - intros H. now right.
  - intros [H | H]; [discriminate H | exact H].
Qed.

Lemma raises_ok {A} (a : A) : raises_validation (Ok a) <-> False.
Proof. split; [intros [r H]; discriminate H | tauto]. Qed.

Lemma raises_ok_then {A} (k : result Message.exn A) :
  raises_validation (Ok tt ;; k) <-> raises_validation k.
Proof. reflexivity. Qed.

Lemma raise_if_then_assoc {E A} (c : bool) (e : E) (x : result E unit)
    (k : result E A) :
  ((raise_if c e ;; x) ;; k) = (raise_if c e ;; (x ;; k)).
Proof. now destruct c. Qed.

Lemma check_raises_iff (m : Message.t) :
  raises_validation (Message._check m) <-> invariant_violated m.
Proof.
  destruct m as [ts id ext rtr err ch dlc data fd rx brs esi].
  unfold Message._check, invariant_violated. cbn [Message.timestamp Message.id
    Message.is_extended_id Message.is_remote_frame Message.is_error_frame
    Message.dlc Message.data Message.is_fd Message.bitrate_switch
    Message.error_state_indicator].
  rewrite <- ltb_zero_negative, <- isinf_infinite, <- isnan_not_a_number.
  destruct rtr, ext, fd; cbn [negb];
    repeat (progress rewrite ?raise_if_then_assoc, ?raises_raise_if_then,
              ?raises_ok_then, ?raises_raise_if, ?raises_ok);
    rewrite ?negb_true_iff, ?bool_decide_eq_false, ?Z.eqb_neq, ?Z.ltb_lt,
      ?Z.geb_le, ?Z.gtb_lt;
    change (2 ^ 29) with 536870912; change (2 ^ 11) with 2048;
    (split; intros H; cases H; pick).
Qed.

(** ** Construction of a frame *)

Lemma init_data_not_validation (data : option CanData) (rtr : bool) :
  ~ raises_validation (Message.init_data data rtr).
Proof.
  intros [r H]. unfold Message.init_data in H.
  destruct data as [[b | b | l | n a | ] | ], rtr; cbn in H;
    try discriminate H.
  - destruct (bytes_of_ints l); discriminate H.
  - destruct (_ || _), (n <? 0), (n =? 0), a; discriminate H.
Qed.

Lemma init_unfold ts id ext rtr err ch dlc data fd rx brs esi check b :
  Message.init_data data rtr = Ok b ->
  let self := Message.mk ts id ext rtr err ch
                (match dlc with None => len b | Some d => d end) b fd rx brs
                esi in
  Message.__init__ ts id ext rtr err ch dlc data fd rx brs esi check
  = ((if check then Message._check self else Ok tt) ;; Ok self).
Proof. intros H. unfold Message.__init__. rewrite H. reflexivity. Qed.

Lemma init_data_empty (data : option CanData) (rtr : bool) :
  data = None \/ rtr = true -> Message.init_data data rtr = Ok [].
Proof.
  intros [-> | ->]; [reflexivity |]. now destruct data.
Qed.

Lemma check_ok_or_validation (m : Message.t) :
  Message._check m = Ok tt \/ raises_validation (Message._check m).
Proof.
  destruct (Message._check m) as [[] | e] eqn:E; [now left | right].
  revert E. unfold Message._check, raise_if.
  repeat match goal with
         | |- context [if ?c then _ else _] => destruct c; cbn
         end;
    intros E; try discriminate E;
    injection E as <-; eexists; reflexivity.
Qed.

(** The errors of [_check]: the constructor ends in a [ValidationError],
    the [ValueError] that [_check] raises, exactly when [check] is set and
    the frame it has built breaks one of the invariants (timestamp
    negative, infinite or NaN; remote and error; remote and FD; id negative
    or beyond its 29 or 11 bits; dlc negative, above 8, or above 64 for FD;
    remote with a payload; dlc other than the payload length; bitrate switch
    or error state indicator without FD). With [check] false it never does,
    whatever the arguments. *)
Theorem init_validation_error_iff
    ts id ext rtr err ch dlc data fd rx brs esi check :
  let construct :=
    Message.__init__ ts id ext rtr err ch dlc data fd rx brs esi in
  (raises_validation (construct check)
   <-> check = true
       /\ exists m, construct false = Ok m /\ invariant_violated m)
  /\ ~ raises_validation (construct false).
Proof.
  intros construct. subst construct.
  destruct (Message.init_data data rtr) as [b | e] eqn:E.
  - rewrite !(init_unfold _ _ _ _ _ _ _ _ _ _ _ _ _ _ E). cbn zeta.
    set (self := Message.mk _ _ _ _ _ _ _ _ _ _ _ _).
    split.
    + destruct check.
      * destruct (check_ok_or_validation self) as [Hok | Hraise].
        -- rewrite Hok. split.
           ++ intros [r H]. discriminate H.
           ++ intros [_ [m [Hm Hv]]]. injection Hm as <-.
              apply check_raises_iff in Hv. destruct Hv as [r Hr].
              rewrite Hok in Hr. discriminate Hr.
        -- split.
           ++ intros _. split; [reflexivity |].
              exists self. split; [reflexivity |].
              now apply check_raises_iff.
           ++ intros _. destruct Hraise as [r Hr]. exists r.
              rewrite Hr. reflexivity.
      * split.
        -- intros [r H]. discriminate H.
        -- intros [H _]. discriminate H.
    + intros [r H]. discriminate H.
  - assert (Hall : forall c,
               Message.__init__ ts id ext rtr err ch dlc data fd rx brs esi c
               = Raise e).
    { intros c. unfold Message.__init__. rewrite E. reflexivity. }
    assert (Hno : ~ raises_validation (@Raise Message.exn Message.t e)).
    { intros [r H]. apply (init_data_not_validation data rtr).
      exists r. rewrite E. congruence. }
    rewrite !Hall. split; [split |]; try exact Hno.
    + intros H. now apply Hno in H.
    + intros [_ [m [Hm _]]]. discriminate Hm.
Qed.

Lemma init_validation_error_iff_witness :
  raises_validation (Message.with_defaults 0x20000000 None None true)
  /\ ~ raises_validation (Message.with_defaults 0x20000000 None None false).
Proof.
  destruct (init_validation_error_iff Float.zero 0x20000000 true false false
              None None None false true false false true) as [Hiff Hno].
  split; [| exact Hno].
  apply Hiff. split; [reflexivity |].
  eexists. split; [reflexivity |].
  unfold invariant_violated. cbn.
  do 6 right. left. split; [reflexivity | discriminate].
Defined.

(** C8: when [data] is omitted or [is_remote_frame] is set, the constructor
    returns (without [check]) and whatever it returns holds the empty
    payload, whatever was supplied as [data]; when [dlc] is omitted the
    stored [dlc] is the length of the stored payload, so 0 for a remote
    frame. *)
Theorem init_payload_and_dlc
    ts id ext rtr err ch dlc data fd rx brs esi :
  let construct :=
    Message.__init__ ts id ext rtr err ch dlc data fd rx brs esi in
  (data = None \/ rtr = true ->
   (exists m, construct false = Ok m)
   /\ forall check m, construct check = Ok m -> Message.data m = [])
  /\ (dlc = None ->
      forall check m, construct check = Ok m ->
        Message.dlc m = len (Message.data m)
        /\ (rtr = true -> Message.dlc m = 0)).
Proof.
  intros construct. subst construct. split.
  - intros Hd. apply init_data_empty in Hd. split.
    + eexists. rewrite (init_unfold _ _ _ _ _ _ _ _ _ _ _ _ _ _ Hd).
      reflexivity.
    + intros check m. rewrite (init_unfold _ _ _ _ _ _ _ _ _ _ _ _ _ _ Hd).
      cbn zeta. destruct (if check then _ else _); cbn; [| discriminate].
      intros H. injection H as <-. reflexivity.
  - intros -> check m H.
    destruct (Message.init_data data rtr) as [b | e] eqn:E.
    + rewrite (init_unfold _ _ _ _ _ _ _ _ _ _ _ _ _ _ E) in H.
      cbn zeta in H. destruct (if check then _ else _); cbn in H;
        [| discriminate H].
      injection H as <-. cbn. split; [reflexivity |].
      intros ->. rewrite init_data_empty in E by now right.
      injection E as <-. reflexivity.
    + unfold Message.__init__ in H. rewrite E in H. discriminate H.
Qed.

Lemma init_payload_and_dlc_witness :
  exists m,
    Message.__init__ Float.zero 0x123 true true false None None
      (Some (data_ints [1; 2; 3])) false true false false false = Ok m
    /\ Message.data m = [] /\ Message.dlc m = 0.
Proof.
  pose proof (init_payload_and_dlc Float.zero 0x123 true true false None None
                (Some (data_ints [1; 2; 3])) false true false false)
    as [Hdata Hdlc].
  destruct (Hdata (or_intror eq_refl)) as [[m Hm] Hempty].
  exists m. split; [exact Hm |]. split.
  - exact (Hempty false m Hm).
  - exact (proj2 (Hdlc eq_refl false m Hm) eq_refl).
Defined.

(** ** Comparison of frames *)

Lemma orb_negb_true_iff (b c : bool) (P : Prop) :
  (b = true <-> P) -> (b || negb c = true <-> (c = true -> P)).
Proof. destruct b, c; cbn; intuition congruence. Qed.

Lemma equals_by_value_iff (x y : Message.t) delta cc cd :
  Message.equals_by_value x y delta cc cd = true
  <-> attributes_match x y cc cd /\ timestamps_match x y delta.
Proof.
  unfold Message.equals_by_value, attributes_match, timestamps_match.
  rewrite !andb_true_iff, !bool_decide_eq_true,
    !(orb_negb_true_iff _ _ _ (bool_decide_eq_true _)).
  destruct delta; intuition.
Qed.

Lemma is_true_iff (a b : ref) : is_ a b = true <-> a = b.
Proof. unfold is_. apply bool_decide_eq_true. Qed.

Lemma equals_lookup (σ : Message.store) x y mx my delta cc cd :
  σ !! x = Some mx -> σ !! y = Some my ->
  Message.equals σ x y delta cc cd
  = Some (is_ x y || Message.equals_by_value mx my delta cc cd).
Proof. intros Hx Hy. unfold Message.equals. now rewrite Hx, Hy. Qed.

Lemma with_timestamp_attributes (m : Message.t) ts cc cd :
  attributes_match m (with_timestamp m ts) cc cd.
Proof. unfold attributes_match. cbn. repeat split; reflexivity. Qed.

(** C2: [x.equals(y, timestamp_delta, check_channel, check_direction)]
    returns, and returns true exactly when [x] and [y] are the same instance
    or the nine attributes agree, [channel] agrees unless [check_channel] is
    false, [is_rx] agrees unless [check_direction] is false, and the
    timestamps are no more than [timestamp_delta] apart unless it is [None].
    The default of [timestamp_delta] is 1.0e-6: two frames that differ by
    2e-6 in their timestamps only are not equal under the default and are
    equal under 1e-5. *)
Theorem equals_iff :
  (forall (σ : Message.store) x y mx my delta cc cd,
      σ !! x = Some mx -> σ !! y = Some my ->
      exists b,
        Message.equals σ x y delta cc cd = Some b
        /\ (b = true
            <-> x = y
                \/ (attributes_match mx my cc cd
                    /\ timestamps_match mx my delta)))
  /\ Message.default_timestamp_delta = Some Float.lit_1e_6
  /\ (forall (σ : Message.store) x y mx ts,
         x <> y -> σ !! x = Some mx -> σ !! y = Some (with_timestamp mx ts) ->
         Float.abs (Float.sub (Message.timestamp mx) ts) = Float.lit_2e_6 ->
         Message.equals σ x y Message.default_timestamp_delta true true
         = Some false
         /\ Message.equals σ x y (Some Float.lit_1e_5) true true = Some true).
Proof.
  split; [| split; [reflexivity |]].
  - intros σ x y mx my delta cc cd Hx Hy.
    eexists. split; [apply (equals_lookup _ _ _ _ _ _ _ _ Hx Hy) |].
    now rewrite orb_true_iff, is_true_iff, equals_by_value_iff.
  - intros σ x y mx ts Hne Hx Hy Hdiff.
    rewrite !(equals_lookup _ _ _ _ _ _ _ _ Hx Hy).
    assert (His : is_ x y = false).
    { apply not_true_is_false. now rewrite is_true_iff. }
    rewrite His. cbn [orb]. split; f_equal.
    + apply not_true_is_false. rewrite equals_by_value_iff.
      intros [_ Ht]. cbn in Ht. rewrite Hdiff in Ht. discriminate Ht.
    + apply equals_by_value_iff. split.
      * apply with_timestamp_attributes.
      * cbn. rewrite Hdiff. reflexivity.
Qed.

Lemma equals_iff_witness :
  Message.equals two_frames 1%positive 2%positive Message.default_timestamp_delta true true
  = Some false
  /\ Message.equals two_frames 1%positive 2%positive (Some Float.lit_1e_5) true true = Some true
  /\ exists b,
       Message.equals two_frames 1%positive 1%positive None false false = Some b
       /\ (b = true
           <-> 1%positive = 1%positive
               \/ (attributes_match (frame_at Float.zero)
                     (frame_at Float.zero) false false
                   /\ timestamps_match (frame_at Float.zero)
                        (frame_at Float.zero) None)).
Proof.
  destruct equals_iff as (Hiff & _ & Hscenario).
  assert (H1 : two_frames !! 1%positive = Some (frame_at Float.zero))
    by reflexivity.
  assert (H2 : two_frames !! 2%positive
               = Some (with_timestamp (frame_at Float.zero) Float.lit_2e_6))
    by reflexivity.
  assert (Hne : 1%positive <> 2%positive) by discriminate.
  assert (Hdiff : Float.abs (Float.sub (Message.timestamp (frame_at Float.zero))
                               Float.lit_2e_6) = Float.lit_2e_6)
    by reflexivity.
  destruct (Hscenario two_frames _ _ _ _ Hne H1 H2 Hdiff) as [Hdef Hwide].
  split; [exact Hdef |]. split; [exact Hwide |].
  exact (Hiff two_frames _ _ _ _ None false false H1 H1).
Defined.

Lemma new_unfold (σ : Message.store)
    ts id ext rtr err ch dlc data fd rx brs esi check m :
  Message.__init__ ts id ext rtr err ch dlc data fd rx brs esi check = Ok m ->
  Message.new σ ts id ext rtr err ch dlc data fd rx brs esi check
  = Ok (fresh (dom σ), <[fresh (dom σ) := m]> σ).
Proof. intros H. unfold Message.new. rewrite H. reflexivity. Qed.

Lemma new_inv (σ σ' : Message.store)
    ts id ext rtr err ch dlc data fd rx brs esi check x :
  Message.new σ ts id ext rtr err ch dlc data fd rx brs esi check
  = Ok (x, σ') ->
  exists m,
    Message.__init__ ts id ext rtr err ch dlc data fd rx brs esi check = Ok m
    /\ σ !! x = None /\ σ' = <[x := m]> σ.
Proof.
  unfold Message.new.
  destruct (Message.__init__ _ _ _ _ _ _ _ _ _ _ _ _ _) as [m | e];
    cbn; [| discriminate].
  intros H. injection H as <- <-. exists m. split; [reflexivity |].
  split; [| reflexivity].
  apply not_elem_of_dom. apply is_fresh.
Qed.

Lemma eq_is_identity (x y : ref) : Message.eq x y = is_ x y.
Proof.
  unfold Message.eq, py_eq, Message.__eq__, object___eq__.
  destruct (is_ x y) eqn:E; [reflexivity |].
  assert (E' : is_ y x = false).
  { apply not_true_is_false. rewrite is_true_iff. intros ->.
    apply not_true_iff_false in E. apply E. now apply is_true_iff. }
  now rewrite E'.
Qed.

Lemma attributes_match_refl (m : Message.t) cc cd : attributes_match m m cc cd.
Proof. unfold attributes_match. repeat split; reflexivity. Qed.

(** C7: [==] on frames is the comparison of [object]: it is true on one and
    the same instance only. Two distinct instances with the same attributes,
    such as the results of two constructor calls with the same arguments,
    are not [==]; [equals] is what compares them by value (and finds them
    equal when timestamps are left out). *)
Theorem default_comparison_is_identity :
  (forall x y, Message.eq x y = true <-> x = y)
  /\ (forall (σ : Message.store) x y m,
         x <> y -> σ !! x = Some m -> σ !! y = Some m ->
         Message.eq x y = false
         /\ Message.equals σ x y None true true = Some true)
  /\ (forall (σ σ1 σ2 : Message.store)
             ts id ext rtr err ch dlc data fd rx brs esi check x y,
         Message.new σ ts id ext rtr err ch dlc data fd rx brs esi check
         = Ok (x, σ1) ->
         Message.new σ1 ts id ext rtr err ch dlc data fd rx brs esi check
         = Ok (y, σ2) ->
         x <> y
         /\ (exists m, σ2 !! x = Some m /\ σ2 !! y = Some m)
         /\ Message.eq x y = false).
Proof.
  assert (Hid : forall x y, Message.eq x y = true <-> x = y).
  { intros x y. rewrite eq_is_identity. apply is_true_iff. }
  assert (Hne : forall x y, x <> y -> Message.eq x y = false).
  { intros x y H. apply not_true_is_false. now rewrite Hid. }
  split; [exact Hid |]. split.
  - intros σ x y m Hxy Hx Hy. split; [now apply Hne |].
    rewrite (equals_lookup _ _ _ _ _ _ _ _ Hx Hy). f_equal.
    apply orb_true_iff. right. apply equals_by_value_iff.
    split; [apply attributes_match_refl | exact I].
  - intros σ σ1 σ2 ts id ext rtr err ch dlc data fd rx brs esi check x y H1 H2.
    apply new_inv in H1 as (m1 & Hm1 & Hx & ->).
    apply new_inv in H2 as (m2 & Hm2 & Hy & ->).
    assert (m2 = m1) as -> by congruence.
    assert (Hxy : x <> y).
    { intros ->. rewrite lookup_insert_eq in Hy. discriminate Hy. }
    split; [exact Hxy |]. split; [| now apply Hne].
    exists m1. split.
    + rewrite lookup_insert_ne by congruence. apply lookup_insert_eq.
    + apply lookup_insert_eq.
Qed.

Lemma default_comparison_is_identity_witness :
  exists x y σ1 σ2,
    Message.new ∅ Float.zero 0x123 true false false None None
      (Some (data_ints [1; 2; 3])) false true false false true = Ok (x, σ1)
    /\ Message.new σ1 Float.zero 0x123 true false false None None
         (Some (data_ints [1; 2; 3])) false true false false true = Ok (y, σ2)
    /\ Message.eq x y = false
    /\ Message.equals σ2 x y None true true = Some true.
Proof.
  destruct default_comparison_is_identity as (_ & Hvalue & Hnew).
  pose (m := Message.mk Float.zero 0x123 true false false None 3
               [x01; x02; x03] false true false false).
  assert (Hinit : Message.__init__ Float.zero 0x123 true false false None None
                    (Some (data_ints [1; 2; 3])) false true false false true
                  = Ok m)
    by reflexivity.
  pose (σ1 := <[fresh (dom (∅ : Message.store)) := m]> (∅ : Message.store)).
  pose proof (new_unfold ∅ _ _ _ _ _ _ _ _ _ _ _ _ _ _ Hinit) as H1.
  pose proof (new_unfold σ1 _ _ _ _ _ _ _ _ _ _ _ _ _ _ Hinit) as H2.
  eexists _, _, _, _.
  destruct (Hnew _ _ _ _ _ _ _ _ _ _ _ _ _ _ _ _ _ _ H1 H2)
    as (Hxy & (m' & Hx & Hy) & Heq).
  split; [exact H1 |]. split; [exact H2 |]. split; [exact Heq |].
  exact (proj2 (Hvalue _ _ _ _ Hxy Hx Hy)).
Defined.

(** ** Construction of a LIN message *)

Lemma len_app {A} (l k : list A) : len (l ++ k) = len l + len k.
Proof. unfold len. rewrite length_app. lia. Qed.

Lemma len_times {A} (x : A) (n : Z) : len (times x n) = Z.max 0 n.
Proof. unfold len, times. rewrite repeat_length. lia. Qed.

Lemma len_nonneg {A} (l : list A) : 0 <= len l.
Proof. unfold len. lia. Qed.

Lemma len_extend_zeros (b : list byte) (d : Z) :
  len (LinMessage.extend_zeros b d) = Z.max (len b) d.
Proof. unfold LinMessage.extend_zeros. rewrite len_app, len_times. lia. Qed.

Lemma extend_zeros_nop (b : list byte) (d : Z) :
  d <= len b -> LinMessage.extend_zeros b d = b.
Proof.
  intros H. unfold LinMessage.extend_zeros, times.
  replace (Z.to_nat (d - len b)) with 0%nat by lia. apply app_nil_r.
Qed.

Lemma lin_init_unfold id data dlc flags ts crc info b :
  bytearray_of data = Ok b ->
  LinMessage.__init__ id data dlc flags ts crc info
  = Ok (match dlc with
        | None =>
            let d := LinMessage.dlc_of_len (len b) in
            LinMessage.mk id
              (if d >? len b then LinMessage.extend_zeros b d else b)
              d flags crc info ts
        | Some d =>
            LinMessage.mk id
              (if d <=? 8 then LinMessage.extend_zeros b d else b)
              d flags crc info ts
        end).
Proof.
  intros H. unfold LinMessage.__init__. rewrite H. now destruct dlc.
Qed.

Lemma dlc_of_len_ge (n : Z) : n <= 64 -> n <= LinMessage.dlc_of_len n.
Proof.
  intros H. unfold LinMessage.dlc_of_len.
  repeat match goal with
         | |- context [?a <=? ?b] => destruct (Z.leb_spec a b)
         end; lia.
Qed.

Lemma dlc_of_len_rounds_up (n : Z) :
  0 <= n <= 64 -> rounds_up_to n (LinMessage.dlc_of_len n).
Proof.
  intros H. unfold rounds_up_to, LinMessage.dlc_of_len, ladder.
  repeat match goal with
         | |- context [?a <=? ?b] => destruct (Z.leb_spec a b)
         end;
    (split; [cbn; lia | split; [lia |]]);
    intros l Hl Hn; cbn in Hl; lia.
Qed.

(** C4: built without [dlc] from a payload of [n <= 64] bytes, a LIN message
    gets [n] rounded up to the ladder 0..8, 12, 16, 20, 24, 32, 48, 64 as its
    [dlc] (0 to 8 are kept, 9 gives 12, 13 gives 16, 17 gives 20, 21 gives
    24, 25 gives 32, 33 gives 48, 49 gives 64) and the payload padded with
    zeros on the right to exactly [dlc] bytes; the nine bytes 1..9 give
    [dlc = 12] and the payload 1..9, 0, 0, 0. *)
Theorem init_without_dlc :
  (forall id data b flags ts crc info,
      bytearray_of data = Ok b -> len b <= 64 ->
      exists m,
        LinMessage.__init__ id data None flags ts crc info = Ok m
        /\ rounds_up_to (len b) (LinMessage.dlc m)
        /\ zero_padded_to b (LinMessage.data m) (LinMessage.dlc m))
  /\ (forall n, 0 <= n <= 8 -> LinMessage.dlc_of_len n = n)
  /\ map LinMessage.dlc_of_len [9; 13; 17; 21; 25; 33; 49]
     = [12; 16; 20; 24; 32; 48; 64]
  /\ LinMessage.with_defaults 1 (data_ints one_to_nine) None
     = Ok (LinMessage.mk 1
             [x01; x02; x03; x04; x05; x06; x07; x08; x09; x00; x00; x00]
             12 0 None None None).
Proof.
  split; [| split; [| split; reflexivity]].
  - intros id data b flags ts crc info Hb Hn.
    eexists. split; [apply (lin_init_unfold _ _ _ _ _ _ _ _ Hb) |].
    cbn zeta. cbn [LinMessage.dlc LinMessage.data].
    pose proof (len_nonneg b) as H0.
    pose proof (dlc_of_len_ge (len b) Hn) as Hge.
    split; [apply dlc_of_len_rounds_up; lia |].
    destruct (Z.gtb_spec (LinMessage.dlc_of_len (len b)) (len b)) as [Hgt | Hle].
    + split.
      * eexists. reflexivity.
      * rewrite len_extend_zeros. lia.
    + split.
      * exists 0%nat. now rewrite app_nil_r.
      * lia.
  - intros n Hn. unfold LinMessage.dlc_of_len.
    destruct (Z.leb_spec n 8); [reflexivity | lia].
Qed.

Lemma init_without_dlc_witness :
  exists m,
    LinMessage.with_defaults 1 (data_ints one_to_nine) None = Ok m
    /\ rounds_up_to 9 (LinMessage.dlc m)
    /\ zero_padded_to [x01; x02; x03; x04; x05; x06; x07; x08; x09]
         (LinMessage.data m) (LinMessage.dlc m)
    /\ LinMessage.dlc_of_len 8 = 8.
Proof.
  destruct init_without_dlc as (Hgen & Hsmall & _).
  assert (Hb : bytearray_of (data_ints one_to_nine)
               = Ok [x01; x02; x03; x04; x05; x06; x07; x08; x09])
    by reflexivity.
  assert (Hn : len [x01; x02; x03; x04; x05; x06; x07; x08; x09] <= 64)
    by (vm_compute; discriminate).
  destruct (Hgen 1 _ _ 0 None None None Hb Hn) as (m & Hm & Hup & Hpad).
  exists m. split; [exact Hm |]. split; [exact Hup |]. split; [exact Hpad |].
  apply Hsmall. lia.
Defined.

(** C3, as the constructor has it: with an explicit [dlc <= 8] the stored
    payload is the supplied bytes followed by [dlc - len(data)] zero bytes,
    none when that is not positive; its length is the larger of [dlc] and
    the supplied length, hence exactly [dlc] when no more than [dlc] bytes
    were supplied. With an explicit [dlc > 8] the stored payload is the
    supplied bytes, unchanged. *)
Theorem init_with_dlc id data b d flags ts crc info :
  bytearray_of data = Ok b ->
  exists m,
    LinMessage.__init__ id data (Some d) flags ts crc info = Ok m
    /\ LinMessage.dlc m = d
    /\ (d <= 8 ->
        LinMessage.data m = b ++ times x00 (d - len b)
        /\ len (LinMessage.data m) = Z.max (len b) d
        /\ (len b <= d -> zero_padded_to b (LinMessage.data m) d))
    /\ (d > 8 -> LinMessage.data m = b).
Proof.
  intros Hb. eexists. split; [apply (lin_init_unfold _ _ _ _ _ _ _ _ Hb) |].
  cbn [LinMessage.dlc LinMessage.data]. split; [reflexivity |].
  destruct (Z.leb_spec d 8) as [Hle | Hgt].
  - split; [| lia]. intros _.
    split; [reflexivity |]. split; [apply len_extend_zeros |].
    intros Hlen. split.
    + eexists. reflexivity.
    + rewrite len_extend_zeros. lia.
  - split; [lia | reflexivity].
Qed.

Lemma init_with_dlc_witness :
  exists m,
    LinMessage.with_defaults 1 (data_ints [1; 2; 3]) (Some 5) = Ok m
    /\ LinMessage.data m = [x01; x02; x03; x00; x00]
    /\ len (LinMessage.data m) = 5.
Proof.
  assert (Hb : bytearray_of (data_ints [1; 2; 3]) = Ok [x01; x02; x03])
    by reflexivity.
  destruct (init_with_dlc 1 _ _ 5 0 None None None Hb)
    as (m & Hm & _ & Hsmall & _).
  assert (H5 : 5 <= 8) by discriminate.
  destruct (Hsmall H5) as (Hdata & Hlen & _).
  exists m. split; [exact Hm |]. split; [exact Hdata | exact Hlen].
Defined.

(** C3, as stated, fails: three bytes supplied with [dlc = 2 <= 8] stay
    three bytes, so the stored payload is not padded to exactly [dlc]
    bytes. *)
Lemma init_with_dlc_counterexample :
  exists m,
    LinMessage.with_defaults 1 (data_ints [1; 2; 3]) (Some 2) = Ok m
    /\ 2 <= 8
    /\ LinMessage.data m = [x01; x02; x03]
    /\ len (LinMessage.data m) <> LinMessage.dlc m
    /\ ~ zero_padded_to [x01; x02; x03] (LinMessage.data m) 2.
Proof.
  eexists. split; [reflexivity |]. cbn [LinMessage.data LinMessage.dlc].
  split; [discriminate |]. split; [reflexivity |].
  split; [discriminate |].
  intros [_ Hlen]. discriminate Hlen.
Qed.

(** C10: the constructor never shortens the payload. Whatever [dlc] is, the
    supplied bytes are a prefix of the stored payload, which is at least as
    long; an explicit [dlc <= 8] smaller than the supplied length leaves the
    payload as supplied, longer than [dlc]. *)
Theorem init_never_truncates id data b dlc flags ts crc info :
  bytearray_of data = Ok b ->
  exists m,
    LinMessage.__init__ id data dlc flags ts crc info = Ok m
    /\ b `prefix_of` LinMessage.data m
    /\ len b <= len (LinMessage.data m)
    /\ forall d, dlc = Some d -> d <= 8 -> d < len b ->
         LinMessage.data m = b
         /\ LinMessage.dlc m = d
         /\ len (LinMessage.data m) > LinMessage.dlc m.
Proof.
  intros Hb. eexists. split; [apply (lin_init_unfold _ _ _ _ _ _ _ _ Hb) |].
  assert (Hext : forall d, b `prefix_of` LinMessage.extend_zeros b d).
  { intros d. now apply prefix_app_r. }
  destruct dlc as [d |]; cbn zeta; cbn [LinMessage.dlc LinMessage.data].
  - destruct (Z.leb_spec d 8) as [Hle | Hgt].
    + split; [apply Hext |]. split; [rewrite len_extend_zeros; lia |].
      intros d' Hd' _ Hlt. injection Hd' as <-.
      rewrite extend_zeros_nop by lia. repeat split; lia.
    + split; [reflexivity |]. split; [lia |].
      intros d' Hd' Hle. injection Hd' as <-. lia.
  - destruct (_ >? _).
    + split; [apply Hext |]. split; [rewrite len_extend_zeros; lia |].
      discriminate.
    + split; [reflexivity |]. split; [lia | discriminate].
Qed.

Lemma init_never_truncates_witness :
  exists m,
    LinMessage.with_defaults 1 (data_ints [1; 2; 3]) (Some 2) = Ok m
    /\ LinMessage.data m = [x01; x02; x03]
    /\ len (LinMessage.data m) > LinMessage.dlc m.
Proof.
  assert (Hb : bytearray_of (data_ints [1; 2; 3]) = Ok [x01; x02; x03])
    by reflexivity.
  destruct (init_never_truncates 1 _ _ (Some 2) 0 None None None Hb)
    as (m & Hm & _ & _ & Hshort).
  assert (H2 : 2 <= 8) by discriminate.
  assert (H3 : 2 < len [x01; x02; x03]) by reflexivity.
  destruct (Hshort 2 eq_refl H2 H3) as (Hdata & _ & Hlen).
  exists m. split; [exact Hm |]. split; [exact Hdata | exact Hlen].
Defined.

(** ** Comparison of LIN messages *)

Lemma option_eqb_true_iff {A} (eqb : A -> A -> bool) (a b : option A) :
  (forall x y, eqb x y = true <-> x = y) ->
  LinMessage.option_eqb eqb a b = true <-> a = b.
Proof.
  intros Heqb. destruct a as [x |], b as [y |]; cbn.
  - rewrite Heqb. split; congruence.
  - split; discriminate.
  - split; discriminate.
  - split; reflexivity.
Qed.

Lemma eq_slots_are :
  LinMessage._eq_slots
  = [LinMessage.slot_id; LinMessage.slot_data; LinMessage.slot_dlc;
     LinMessage.slot_flags; LinMessage.slot_crc; LinMessage.slot_info].
Proof. reflexivity. Qed.

(** C6: [x == y] on two LIN messages returns a boolean, true exactly when
    [id], [data], [dlc], [flags], [crc] and [info], the slots before
    [timestamp], are each equal in [x] and [y]. The timestamps play no part:
    replacing them changes nothing. Each slot is compared exactly. *)
Theorem lin_eq_iff (x y : LinMessage.t) :
  exists b,
    LinMessage.__eq__ x (LinMessage.instance y) = EqBool b
    /\ (b = true
        <-> LinMessage.id x = LinMessage.id y
            /\ LinMessage.data x = LinMessage.data y
            /\ LinMessage.dlc x = LinMessage.dlc y
            /\ LinMessage.flags x = LinMessage.flags y
            /\ LinMessage.crc x = LinMessage.crc y
            /\ LinMessage.info x = LinMessage.info y)
    /\ forall tx ty,
         LinMessage.__eq__ (lin_with_timestamp x tx)
           (LinMessage.instance (lin_with_timestamp y ty))
         = EqBool b.
Proof.
  eexists. split; [reflexivity |]. split.
  - rewrite eq_slots_are. cbn [forallb LinMessage.slot_eq].
    rewrite !andb_true_iff, !Z.eqb_eq, bool_decide_eq_true.
    rewrite (option_eqb_true_iff Z.eqb) by apply Z.eqb_eq.
    rewrite (option_eqb_true_iff is_) by apply is_true_iff.
    tauto.
  - intros tx ty. reflexivity.
Qed.

Lemma lin_eq_iff_witness :
  LinMessage.__eq__
    (LinMessage.mk 1 [x01; x02] 2 0 None None (Some Float.lit_1e_6))
    (LinMessage.instance (LinMessage.mk 1 [x01; x02] 2 0 None None None))
  = EqBool true.
Proof.
  destruct (lin_eq_iff
              (LinMessage.mk 1 [x01; x02] 2 0 None None (Some Float.lit_1e_6))
              (LinMessage.mk 1 [x01; x02] 2 0 None None None))
    as (b & Hb & Hiff & _).
  rewrite Hb. f_equal. apply Hiff. cbn. repeat split; reflexivity.
Defined.

(** * Further properties *)

(** ** The rule that validation reports *)

(** The rules in the order [_check] tests them. *)
Definition rules : list Message.rule :=
  [Message.timestamp_negative; Message.timestamp_infinite;
   Message.timestamp_nan; Message.remote_and_error; Message.remote_fd;
   Message.id_negative; Message.extended_id_range; Message.normal_id_range;
   Message.dlc_negative; Message.dlc_fd_range; Message.dlc_classic_range;
   Message.remote_with_data; Message.dlc_mismatch;
   Message.bitrate_switch_without_fd;
   Message.error_state_indicator_without_fd].

(** What each rule forbids, on its own. *)
Definition rule_violated (r : Message.rule) (m : Message.t) : Prop :=
  match r with
  | Message.timestamp_negative => negative (Message.timestamp m)
  | Message.timestamp_infinite => infinite (Message.timestamp m)
  | Message.timestamp_nan => not_a_number (Message.timestamp m)
  | Message.remote_and_error =>
      Message.is_remote_frame m = true /\ Message.is_error_frame m = true
  | Message.remote_fd =>
      Message.is_remote_frame m = true /\ Message.is_fd m = true
  | Message.id_negative => Message.id m < 0
  | Message.extended_id_range =>
      Message.is_extended_id m = true /\ Message.id m >= 2 ^ 29
  | Message.normal_id_range =>
      Message.is_extended_id m = false /\ Message.id m >= 2 ^ 11
  | Message.dlc_negative => Message.dlc m < 0
  | Message.dlc_fd_range => Message.is_fd m = true /\ Message.dlc m > 64
  | Message.dlc_classic_range =>
      Message.is_fd m = false /\ Message.dlc m > 8
  | Message.remote_with_data =>
      Message.is_remote_frame m = true /\ Message.data m <> []
  | Message.dlc_mismatch =>
      Message.is_remote_frame m = false
      /\ Message.dlc m <> len (Message.data m)
  | Message.bitrate_switch_without_fd =>
      Message.is_fd m = false /\ Message.bitrate_switch m = true
  | Message.error_state_indicator_without_fd =>
      Message.is_fd m = false /\ Message.error_state_indicator m = true
  end.

(** [rule_violated], decided. *)
Definition violatedb (m : Message.t) (r : Message.rule) : bool :=
  match r with
  | Message.timestamp_negative =>
      Float.ltb (Message.timestamp m) Float.zero
  | Message.timestamp_infinite => Float.isinf (Message.timestamp m)
  | Message.timestamp_nan => Float.isnan (Message.timestamp m)
  | Message.remote_and_error =>
      Message.is_remote_frame m && Message.is_error_frame m
  | Message.remote_fd => Message.is_remote_frame m && Message.is_fd m
  | Message.id_negative => Message.id m <? 0
  | Message.extended_id_range =>
      Message.is_extended_id m && (Message.id m >=? 0x20000000)
  | Message.normal_id_range =>
      negb (Message.is_extended_id m) && (Message.id m >=? 0x800)
  | Message.dlc_negative => Message.dlc m <? 0
  | Message.dlc_fd_range => Message.is_fd m && (Message.dlc m >? 64)
  | Message.dlc_classic_range =>
      negb (Message.is_fd m) && (Message.dlc m >? 8)
  | Message.remote_with_data =>
      Message.is_remote_frame m && negb (bool_decide (Message.data m = []))
  | Message.dlc_mismatch =>
      negb (Message.is_remote_frame m)
      && negb (Message.dlc m =? len (Message.data m))
  | Message.bitrate_switch_without_fd =>
      negb (Message.is_fd m) && Message.bitrate_switch m
  | Message.error_state_indicator_without_fd =>
      negb (Message.is_fd m) && Message.error_state_indicator m
  end.

(** [r] is the first rule of the list that [m] violates. *)
Definition first_violated (m : Message.t) (r : Message.rule) : Prop :=
  exists earlier later,
    rules = earlier ++ r :: later
    /\ rule_violated r m
    /\ forall r', In r' earlier -> ~ rule_violated r' m.

Lemma violatedb_iff (m : Message.t) (r : Message.rule) :
  violatedb m r = true <-> rule_violated r m.
Proof.
  destruct m as [ts id ext rtr err ch dlc data fd rx brs esi].
  destruct r; cbn;
    rewrite ?ltb_zero_negative, ?isinf_infinite, ?isnan_not_a_number,
      ?andb_true_iff, ?negb_true_iff, ?bool_decide_eq_false, ?Z.eqb_neq,
      ?Z.ltb_lt, ?Z.geb_le, ?Z.gtb_lt;
    try reflexivity;
    change (2 ^ 29) with 536870912; change (2 ^ 11) with 2048;
    (split; [intros [? ?] | intros [? ?]]; try split; try assumption; lia)
    || lia.
Qed.

Lemma check_find (m : Message.t) :
  Message._check m
  = match find (violatedb m) rules with
    | Some r => Raise (Message.ValidationError r)
    | None => Ok tt
    end.
Proof.
  destruct m as [ts id ext rtr err ch dlc data fd rx brs esi].
  unfold Message._check, rules, find, violatedb, raise_if.
  cbn [Message.timestamp Message.id Message.is_extended_id
       Message.is_remote_frame Message.is_error_frame Message.dlc
       Message.data Message.is_fd Message.bitrate_switch
       Message.error_state_indicator].
  destruct rtr, ext, fd; cbn [andb negb];
    repeat match goal with
           | |- context [if ?c then _ else _] =>
               destruct c; cbn; try reflexivity
           end.
Qed.

Lemma find_first {A} (p : A -> bool) (l : list A) (x : A) :
  find p l = Some x
  <-> exists l1 l2,
        l = l1 ++ x :: l2 /\ p x = true /\ forall y, In y l1 -> p y = false.
Proof.
  split.
  - induction l as [| a l IH]; cbn; [discriminate |].
    destruct (p a) eqn:Ha.
    + intros H. injection H as <-. exists [], l. now repeat split.
    + intros H. destruct (IH H) as (l1 & l2 & -> & Hx & Hl1).
      exists (a :: l1), l2. repeat split; [assumption |].
      intros y [<- | Hy]; [assumption | now apply Hl1].
  - intros (l1 & l2 & -> & Hx & Hl1).
    induction l1 as [| a l1 IH]; cbn.
    + now rewrite Hx.
    + rewrite (Hl1 a) by now left. apply IH.
      intros y Hy. apply Hl1. now right.
Qed.

Lemma check_raises_first (m : Message.t) (r : Message.rule) :
  Message._check m = Raise (Message.ValidationError r)
  <-> first_violated m r.
Proof.
  rewrite check_find. unfold first_violated.
  transitivity (find (violatedb m) rules = Some r).
  - destruct (find (violatedb m) rules); split; congruence.
  - rewrite find_first. split.
    + intros (l1 & l2 & Hl & Hr & Hl1). exists l1, l2.
      split; [assumption |]. split; [now apply violatedb_iff |].
      intros r' Hin Hv. apply violatedb_iff in Hv.
      rewrite (Hl1 r' Hin) in Hv. discriminate Hv.
    + intros (l1 & l2 & Hl & Hr & Hl1). exists l1, l2.
      split; [assumption |]. split; [now apply violatedb_iff |].
      intros r' Hin. apply not_true_is_false.
      rewrite violatedb_iff. now apply Hl1.
Qed.

Lemma check_passes_iff (m : Message.t) :
  Message._check m = Ok tt <-> forall r, ~ rule_violated r m.
Proof.
  rewrite check_find. split.
  - destruct (find (violatedb m) rules) eqn:E; [discriminate |].
    intros _ r Hv. apply violatedb_iff in Hv.
    assert (Hin : In r rules) by (destruct r; cbn; tauto).
    pose proof (find_none _ _ E r Hin) as Hf. congruence.
  - intros H. destruct (find (violatedb m) rules) eqn:E; [| reflexivity].
    apply find_some in E as [_ E]. apply violatedb_iff in E.
    now apply H in E.
Qed.

(** X1: [_check] reports one rule, the first in its order of tests that the
    frame violates, and passes exactly when the frame violates none. *)
Theorem check_reports_first_violation (m : Message.t) :
  (forall r, Message._check m = Raise (Message.ValidationError r)
             <-> first_violated m r)
  /\ (Message._check m = Ok tt <-> forall r, ~ rule_violated r m)
  /\ forall e, Message._check m = Raise e ->
       exists r, e = Message.ValidationError r.
Proof.
  split; [| split].
  - intros r. apply check_raises_first.
  - apply check_passes_iff.
  - intros e He. rewrite check_find in He.
    destruct (find (violatedb m) rules) as [r |]; [| discriminate He].
    exists r. congruence.
Qed.

Lemma check_reports_first_violation_witness :
  Message._check
    (Message.mk Float.zero (-1) true false false None 9 [] false true true
       false)
  = Raise (Message.ValidationError Message.id_negative).
Proof.
  apply (proj1 (check_reports_first_violation _) Message.id_negative).
  exists [Message.timestamp_negative; Message.timestamp_infinite;
          Message.timestamp_nan; Message.remote_and_error; Message.remote_fd].
  eexists. split; [reflexivity |]. split; [reflexivity |].
  intros r' Hin. cbn in Hin.
  destruct Hin as [<- | [<- | [<- | [<- | [<- | []]]]]]; cbn;
    try tauto; intros [H _]; discriminate H.
Defined.

(** ** Frames that passed validation *)

(** A timestamp that is a number and not below zero. *)
Definition nonnegative_finite (x : Float.t) : Prop :=
  match x with
  | S754_zero _ | S754_finite false _ _ => True
  | _ => False
  end.

(** The attributes of a frame fit together. *)
Definition well_formed (m : Message.t) : Prop :=
  nonnegative_finite (Message.timestamp m)
  /\ 0 <= Message.id m
     < (if Message.is_extended_id m then 2 ^ 29 else 2 ^ 11)
  /\ 0 <= Message.dlc m <= (if Message.is_fd m then 64 else 8)
  /\ (if Message.is_remote_frame m
      then Message.data m = []
           /\ Message.is_error_frame m = false /\ Message.is_fd m = false
      else len (Message.data m) = Message.dlc m)
  /\ (Message.is_fd m = false ->
      Message.bitrate_switch m = false
      /\ Message.error_state_indicator m = false).

Lemma check_ok_iff_well_formed (m : Message.t) :
  Message._check m = Ok tt <-> well_formed m.
Proof.
  rewrite check_find.
  destruct m as [ts id ext rtr err ch dlc data fd rx brs esi].
  unfold rules, find, violatedb, well_formed.
  cbn [Message.timestamp Message.id Message.is_extended_id
       Message.is_remote_frame Message.is_error_frame Message.dlc
       Message.data Message.is_fd Message.bitrate_switch
       Message.error_state_indicator].
  change (2 ^ 29) with 536870912. change (2 ^ 11) with 2048.
  destruct ts as [[] | [] | | [] mt et], rtr, ext, fd, err, brs, esi;
    cbn [Float.ltb Float.isinf Float.isnan SFltb SFcompare Float.zero
         nonnegative_finite andb negb];
    (split; [| intros (Hts & Hid & Hdlc & Hdata & Hflags)]);
    try contradiction;
    try (destruct Hdata as (_ & ? & ?); discriminate);
    try (destruct (Hflags eq_refl); discriminate);
    repeat match goal with
           | |- context [?a <? ?b] => destruct (Z.ltb_spec a b)
           | |- context [?a >=? ?b] =>
               rewrite (Z.geb_leb a b); destruct (Z.leb_spec b a)
           | |- context [?a >? ?b] =>
               rewrite (Z.gtb_ltb a b); destruct (Z.ltb_spec b a)
           | |- context [?a =? ?b] => destruct (Z.eqb_spec a b)
           | |- context [bool_decide ?P] => destruct (bool_decide_reflect P)
           end;
    cbn [negb]; try discriminate; try lia;
    try (destruct Hdata as (? & _)); try contradiction;
    try reflexivity;
    intros _; repeat split; try assumption; try lia; discriminate.
Qed.

Lemma init_ok_inv ts id ext rtr err ch dlc data fd rx brs esi check m :
  Message.__init__ ts id ext rtr err ch dlc data fd rx brs esi check = Ok m ->
  exists b,
    Message.init_data data rtr = Ok b
    /\ m = Message.mk ts id ext rtr err ch
             (match dlc with None => len b | Some d => d end) b fd rx brs esi
    /\ (check = true -> Message._check m = Ok tt).
Proof.
  intros H.
  destruct (Message.init_data data rtr) as [b | e] eqn:E.
  - rewrite (init_unfold _ _ _ _ _ _ _ _ _ _ _ _ _ _ E) in H. cbn zeta in H.
    exists b. split; [reflexivity |].
    destruct check.
    + destruct (Message._check _) as [[] | e] eqn:Hc; cbn in H;
        [| discriminate H].
      injection H as <-. split; [reflexivity | intros _; exact Hc].
    + cbn in H. injection H as <-. split; [reflexivity | discriminate].
  - unfold Message.__init__ in H. rewrite E in H. discriminate H.
Qed.

Lemma init_raises_inv ts id ext rtr err ch dlc data fd rx brs esi check r :
  Message.__init__ ts id ext rtr err ch dlc data fd rx brs esi check
  = Raise (Message.ValidationError r) ->
  exists b,
    Message.init_data data rtr = Ok b
    /\ Message._check
         (Message.mk ts id ext rtr err ch
            (match dlc with None => len b | Some d => d end) b fd rx brs esi)
       = Raise (Message.ValidationError r).
Proof.
  intros H.
  destruct (Message.init_data data rtr) as [b | e] eqn:E.
  - rewrite (init_unfold _ _ _ _ _ _ _ _ _ _ _ _ _ _ E) in H. cbn zeta in H.
    exists b. split; [reflexivity |].
    destruct check; [| discriminate H].
    destruct (Message._check _) as [[] | e]; cbn in H; [discriminate H |].
    congruence.
  - exfalso. apply (init_data_not_validation data rtr).
    exists r. unfold Message.__init__ in H. rewrite E in H. cbn in H.
    rewrite E. congruence.
Qed.

(** X2: the constructor returns a frame under [check] exactly when it
    returns that frame without [check] and the frame is well formed: its
    timestamp is a number that is not negative, its id lies in the 29 or 11
    bits of its kind, its [dlc] is between 0 and 8 (64 for FD), a remote
    frame has no payload and is neither an error nor an FD frame, any other
    frame has exactly [dlc] bytes of payload, and the two FD flags are clear
    without FD. Such a frame holds at most 64 bytes, its [__len__] is the
    length of its [__bytes__] unless it is remote, and it passes [_check]
    again. *)
Theorem checked_init_well_formed
    ts id ext rtr err ch dlc data fd rx brs esi m :
  let construct :=
    Message.__init__ ts id ext rtr err ch dlc data fd rx brs esi in
  (construct true = Ok m <-> construct false = Ok m /\ well_formed m)
  /\ (construct true = Ok m ->
      len (Message.data m) <= 64
      /\ (rtr = false -> Message.__len__ m = len (Message.__bytes__ m))
      /\ Message._check m = Ok tt).
Proof.
  intros construct. subst construct.
  assert (Hfwd : Message.__init__ ts id ext rtr err ch dlc data fd rx brs esi
                   true = Ok m ->
                 Message.__init__ ts id ext rtr err ch dlc data fd rx brs esi
                   false = Ok m
                 /\ Message._check m = Ok tt).
  { intros H. destruct (init_ok_inv _ _ _ _ _ _ _ _ _ _ _ _ _ _ H)
      as (b & Hb & Hm & Hc).
    split; [| now apply Hc].
    rewrite (init_unfold _ _ _ _ _ _ _ _ _ _ _ _ _ _ Hb). cbn.
    now rewrite Hm. }
  split.
  - split.
    + intros H. destruct (Hfwd H) as [Hf Hc].
      split; [exact Hf | now apply check_ok_iff_well_formed].
    + intros [H Hwf]. apply check_ok_iff_well_formed in Hwf.
      destruct (init_ok_inv _ _ _ _ _ _ _ _ _ _ _ _ _ _ H)
        as (b & Hb & Hm & _).
      rewrite (init_unfold _ _ _ _ _ _ _ _ _ _ _ _ _ _ Hb). cbn zeta.
      rewrite <- Hm, Hwf. reflexivity.
  - intros H. destruct (Hfwd H) as [Hf Hc].
    pose proof (proj1 (check_ok_iff_well_formed m) Hc) as Hwf.
    destruct Hwf as (_ & _ & Hdlc & Hdata & _).
    destruct (init_ok_inv _ _ _ _ _ _ _ _ _ _ _ _ _ _ H)
      as (b & _ & Hm & _).
    assert (Hrtr : Message.is_remote_frame m = rtr) by now subst m.
    rewrite Hrtr in Hdata.
    split; [| split; [| exact Hc]].
    + destruct rtr.
      * destruct Hdata as [-> _]. unfold len. cbn. lia.
      * rewrite Hdata. revert Hdlc. destruct (Message.is_fd m); lia.
    + intros ->. unfold Message.__len__, Message.__bytes__.
      now rewrite Hdata.
Qed.

Lemma checked_init_well_formed_witness :
  well_formed
    (Message.mk Float.zero 0x123 true false false None 3 [x01; x02; x03]
       false true false false).
Proof.
  assert (H : Message.__init__ Float.zero 0x123 true false false None None
                (Some (data_ints [1; 2; 3])) false true false false true
              = Ok (Message.mk Float.zero 0x123 true false false None 3
                      [x01; x02; x03] false true false false))
    by reflexivity.
  exact (proj2 (proj1 (proj1 (checked_init_well_formed
                               _ _ _ _ _ _ _ _ _ _ _ _ _)) H)).
Defined.

Lemma check_raises_violated (m : Message.t) (r : Message.rule) :
  Message._check m = Raise (Message.ValidationError r) -> rule_violated r m.
Proof.
  intros H. apply check_raises_first in H.
  destruct H as (_ & _ & _ & H & _). exact H.
Qed.

(** X3: which of the three timestamp errors is reported depends on the
    timestamp alone. Minus infinity is reported as negative, like every
    timestamp below zero; the error for an infinite timestamp is reported
    for plus infinity only, and the error for NaN for NaN only. *)
Theorem check_timestamp_rule (m : Message.t) :
  (Message._check m = Raise (Message.ValidationError Message.timestamp_negative)
   <-> negative (Message.timestamp m))
  /\ (Message._check m
      = Raise (Message.ValidationError Message.timestamp_infinite)
      <-> Message.timestamp m = S754_infinity false)
  /\ (Message._check m = Raise (Message.ValidationError Message.timestamp_nan)
      <-> Message.timestamp m = S754_nan).
Proof.
  split; [| split].
  - split; [apply check_raises_violated |].
    intros H. rewrite check_find. unfold rules. cbn [find violatedb].
    now rewrite (proj2 (ltb_zero_negative _) H).
  - split.
    + intros H. pose proof (check_raises_violated _ _ H) as Hv.
      rewrite check_find in H. unfold rules in H. cbn [find violatedb] in H.
      cbn in Hv. destruct (Message.timestamp m) as [| [] | |];
        try contradiction; [| reflexivity].
      change (Float.ltb (S754_infinity true) Float.zero) with true in H.
      discriminate H.
    + intros H. rewrite check_find. unfold rules. cbn [find violatedb].
      now rewrite H.
  - split.
    + intros H. apply check_raises_violated in H. cbn in H.
      now destruct (Message.timestamp m).
    + intros H. rewrite check_find. unfold rules. cbn [find violatedb].
      now rewrite H.
Qed.

Lemma check_timestamp_rule_witness :
  Message._check (frame_at (S754_infinity true))
  = Raise (Message.ValidationError Message.timestamp_negative).
Proof.
  apply (proj1 (check_timestamp_rule (frame_at (S754_infinity true)))).
  exact I.
Defined.

(** X4: two of the rules can never be what the constructor reports. A
    remote frame is built with an empty payload, so the error for a remote
    frame that carries data is never raised; and a [dlc] that is left out is
    the payload length, so it is never reported as negative or as not
    matching the payload. *)
Theorem init_never_reports
    ts id ext rtr err ch dlc data fd rx brs esi check :
  let construct :=
    Message.__init__ ts id ext rtr err ch dlc data fd rx brs esi check in
  construct <> Raise (Message.ValidationError Message.remote_with_data)
  /\ (dlc = None ->
      construct <> Raise (Message.ValidationError Message.dlc_negative)
      /\ construct <> Raise (Message.ValidationError Message.dlc_mismatch)).
Proof.
  intros construct. subst construct. split; [| intros ->; split].
  - intros H. apply init_raises_inv in H as (b & Hb & Hc).
    apply check_raises_violated in Hc. cbn in Hc. destruct Hc as [-> Hdata].
    rewrite init_data_empty in Hb by now right. congruence.
  - intros H. apply init_raises_inv in H as (b & Hb & Hc).
    apply check_raises_violated in Hc. cbn in Hc.
    pose proof (len_nonneg b). lia.
  - intros H. apply init_raises_inv in H as (b & Hb & Hc).
    apply check_raises_violated in Hc. cbn in Hc. tauto.
Qed.

(** ** Errors of the payload conversion *)

Lemma byte_of_int_none (z : Z) :
  byte_of_int z = None <-> ~ (0 <= z < 256).
Proof.
  unfold byte_of_int.
  destruct (Z.leb_spec 0 z), (Z.ltb_spec z 256); cbn;
    try (split; [lia | reflexivity]).
  rewrite Byte.of_N_None_iff. lia.
Qed.

Lemma bytes_of_ints_none (l : list Z) :
  bytes_of_ints l = None <-> exists z, In z l /\ ~ (0 <= z < 256).
Proof.
  induction l as [| z l IH]; cbn.
  - split; [discriminate | intros (z & [] & _)].
  - destruct (byte_of_int z) as [b |] eqn:Hz.
    + destruct (bytes_of_ints l) as [bs |].
      * split; [discriminate |].
        intros (z' & [<- | Hin] & Hr).
        -- apply byte_of_int_none in Hr. congruence.
        -- assert (Some bs = None) as H by (apply IH; now exists z').
           discriminate H.
      * split; [| reflexivity].
        intros _. destruct (proj1 IH eq_refl) as (z' & Hin & Hr).
        exists z'. split; [now right | assumption].
    + split; [| reflexivity].
      intros _. exists z. split; [now left | now apply byte_of_int_none].
Qed.

(** The values on which [bytearray()] raises each of its errors. *)
Definition conversion_ValueError (d : CanData) : Prop :=
  (exists l, d = data_ints l /\ exists z, In z l /\ ~ (0 <= z < 256))
  \/ (exists n a, d = data_int n a /\ - maxsize - 1 <= n < 0).

Definition conversion_OverflowError (d : CanData) : Prop :=
  exists n a, d = data_int n a /\ (n < - maxsize - 1 \/ maxsize < n).

Definition conversion_MemoryError (d : CanData) : Prop :=
  exists n, d = data_int n false /\ 0 < n <= maxsize.

Lemma bytearray_of_int (n : Z) (a : bool) :
  bytearray_of (data_int n a)
  = if (n <? - maxsize - 1) || (n >? maxsize) then Raise BuiltinOverflowError
    else if n <? 0 then Raise BuiltinValueError
    else if (n =? 0) || a then Ok (times x00 n)
    else Raise BuiltinMemoryError.
Proof. reflexivity. Qed.

Lemma bytearray_of_errors (d : CanData) :
  (bytearray_of d = Raise BuiltinTypeError <-> d = data_invalid)
  /\ (bytearray_of d = Raise BuiltinValueError <-> conversion_ValueError d)
  /\ (bytearray_of d = Raise BuiltinOverflowError
      <-> conversion_OverflowError d)
  /\ (bytearray_of d = Raise BuiltinMemoryError <-> conversion_MemoryError d).
Proof.
  unfold conversion_ValueError, conversion_OverflowError,
    conversion_MemoryError.
  destruct d as [b | b | l | n a |].
  - cbn. repeat split; try discriminate;
      try (intros [(? & ? & _) | (? & ? & ? & _)]; discriminate);
      try (intros (? & ? & ? & _); discriminate);
      intros (? & ? & _); discriminate.
  - cbn. repeat split; try discriminate;
      try (intros [(? & ? & _) | (? & ? & ? & _)]; discriminate);
      try (intros (? & ? & ? & _); discriminate);
      intros (? & ? & _); discriminate.
  - cbn. destruct (bytes_of_ints l) eqn:E.
    + repeat split; try discriminate;
        try (intros (? & ? & ? & _); discriminate);
        try (intros (? & ? & _); discriminate).
      intros [(l' & Hl & Hz) | (? & ? & ? & _)]; [| discriminate].
      injection Hl as <-. apply bytes_of_ints_none in Hz. congruence.
    + repeat split; try discriminate; try reflexivity;
        try (intros (? & ? & ? & _); discriminate);
        try (intros (? & ? & _); discriminate).
      intros _. left. exists l. split; [reflexivity |].
      now apply bytes_of_ints_none.
  - rewrite bytearray_of_int.
    destruct (Z.ltb_spec n (- maxsize - 1)), (Z.gtb_spec n maxsize),
      (Z.ltb_spec n 0), (Z.eqb_spec n 0), a; cbn;
      repeat split; try discriminate; try reflexivity;
      try (intros _; right; exists n; eexists; split; [reflexivity | lia]);
      try (intros _; exists n; eexists; split; [reflexivity | lia]);
      try (intros _; exists n; split; [reflexivity | lia]);
      try (intros [(? & ? & _) | (n' & a' & Hd & ?)];
           [discriminate | injection Hd as <- <-; lia]);
      try (intros (n' & a' & Hd & ?); injection Hd as <- <-; lia);
      try (intros (n' & Hd & ?); injection Hd as <-; lia);
      intros (n' & Hd & ?); discriminate Hd.
  - cbn. repeat split; try discriminate; try reflexivity;
      try (intros [(? & ? & _) | (? & ? & ? & _)]; discriminate);
      try (intros (? & ? & ? & _); discriminate);
      intros (? & ? & _); discriminate.
Qed.

Lemma init_data_raise (data : option CanData) (rtr : bool) (e : Message.exn) :
  Message.init_data data rtr = Raise e
  <-> rtr = false
      /\ exists d,
           data = Some d
           /\ match e with
              | Message.ConversionError => bytearray_of d = Raise BuiltinTypeError
              | Message.Uncaught BuiltinTypeError => False
              | Message.Uncaught e' => bytearray_of d = Raise e'
              | Message.ValidationError _ => False
              end.
Proof.
  unfold Message.init_data.
  destruct data as [d |], rtr;
    try (split; [discriminate | intros [H (d' & Hd & _)]; congruence]).
  split.
  - intros H. split; [reflexivity |]. exists d. split; [reflexivity |].
    destruct d as [b | b | l | n a |]; try discriminate H;
      destruct (bytearray_of _) as [b' | []] eqn:E; try discriminate H;
      injection H as <-; reflexivity.
  - intros [_ (d' & Hd & He)]. injection Hd as <-.
    destruct d as [b | b | l | n a |];
      try (destruct e as [| r | []]; try contradiction; discriminate He);
      destruct e as [| r | []]; try contradiction; now rewrite He.
Qed.

Lemma init_raise_iff ts id ext rtr err ch dlc data fd rx brs esi check e :
  (forall r, e <> Message.ValidationError r) ->
  Message.__init__ ts id ext rtr err ch dlc data fd rx brs esi check = Raise e
  <-> Message.init_data data rtr = Raise e.
Proof.
  intros He. destruct (Message.init_data data rtr) as [b | e'] eqn:E.
  - rewrite (init_unfold _ _ _ _ _ _ _ _ _ _ _ _ _ _ E). cbn zeta.
    split; [| discriminate].
    destruct check; [| discriminate].
    destruct (check_ok_or_validation
                (Message.mk ts id ext rtr err ch
                   (match dlc with None => len b | Some d => d end) b fd rx
                   brs esi)) as [-> | [r ->]]; cbn; [discriminate |].
    intros H. injection H as <-. now destruct (He r).
  - unfold Message.__init__. rewrite E. cbn.
    split; intros H; injection H as ->; reflexivity.
Qed.

Lemma payload_iff (P Q : CanData -> Prop) (rtr : bool)
    (data : option CanData) :
  (forall d, P d <-> Q d) ->
  (rtr = false /\ exists d, data = Some d /\ P d)
  <-> (rtr = false /\ exists d, data = Some d /\ Q d).
Proof.
  intros H. split; intros [Hr (d & Hd & Hp)];
    (split; [exact Hr |]); exists d; (split; [exact Hd |]); now apply H.
Qed.

(** X5: how the constructor fails on its payload, whatever [check] and the
    other arguments are. The payload of a remote frame is never converted;
    for any other frame the constructor raises its conversion error (a
    [TypeError]) exactly when [bytearray()] cannot convert the value, and
    lets through unchanged the other errors of [bytearray()]: [ValueError]
    exactly for a list of integers with one outside 0..255 and for a
    negative integer count, [OverflowError] exactly for an integer count
    outside the index type, [MemoryError] exactly for a count that cannot
    be allocated. The [TypeError] of [bytearray()] itself never comes out.
    These errors come before validation: with them no rule is reported. *)
Theorem init_conversion_errors
    ts id ext rtr err ch dlc data fd rx brs esi check :
  let construct :=
    Message.__init__ ts id ext rtr err ch dlc data fd rx brs esi check in
  (construct = Raise Message.ConversionError
   <-> rtr = false /\ data = Some data_invalid)
  /\ (construct = Raise (Message.Uncaught BuiltinValueError)
      <-> rtr = false /\ exists d, data = Some d /\ conversion_ValueError d)
  /\ (construct = Raise (Message.Uncaught BuiltinOverflowError)
      <-> rtr = false
          /\ exists d, data = Some d /\ conversion_OverflowError d)
  /\ (construct = Raise (Message.Uncaught BuiltinMemoryError)
      <-> rtr = false /\ exists d, data = Some d /\ conversion_MemoryError d)
  /\ construct <> Raise (Message.Uncaught BuiltinTypeError).
Proof.
  intros construct. subst construct.
  rewrite !init_raise_iff by discriminate. rewrite !init_data_raise.
  split; [| split; [| split; [| split]]].
  - split.
    + intros [Hr (d & Hd & He)]. apply bytearray_of_errors in He.
      split; congruence.
    + intros [Hr ->]. split; [exact Hr |]. now exists data_invalid.
  - apply payload_iff. intros d.
    apply (proj1 (proj2 (bytearray_of_errors d))).
  - apply payload_iff. intros d.
    apply (proj1 (proj2 (proj2 (bytearray_of_errors d)))).
  - apply payload_iff. intros d.
    apply (proj2 (proj2 (proj2 (bytearray_of_errors d)))).
  - intros [_ (d & _ & [])].
Qed.

Lemma init_conversion_errors_witness :
  Message.with_defaults 0 None (Some (data_ints [1; 256])) true
  = Raise (Message.Uncaught BuiltinValueError)
  /\ Message.with_defaults 0 None (Some (data_int (-1) true)) false
     = Raise (Message.Uncaught BuiltinValueError)
  /\ Message.with_defaults 0 None (Some (data_int (2 ^ 70) true)) false
     = Raise (Message.Uncaught BuiltinOverflowError).
Proof.
  split; [| split].
  - apply (proj1 (proj2 (init_conversion_errors Float.zero 0 true false false
                           None None (Some (data_ints [1; 256])) false true
                           false false true))).
    split; [reflexivity |]. eexists. split; [reflexivity |].
    left. exists [1; 256]. split; [reflexivity |].
    exists 256. split; [right; now left | lia].
  - apply (proj1 (proj2 (init_conversion_errors Float.zero 0 true false false
                           None None (Some (data_int (-1) true)) false true
                           false false false))).
    split; [reflexivity |]. eexists. split; [reflexivity |].
    right. exists (-1), true. split; [reflexivity |].
    unfold maxsize. lia.
  - apply (proj1 (proj2 (proj2 (init_conversion_errors Float.zero 0 true
                                  false false None None
                                  (Some (data_int (2 ^ 70) true)) false true
                                  false false false)))).
    split; [reflexivity |]. eexists. split; [reflexivity |].
    exists (2 ^ 70), true. split; [reflexivity |].
    right. unfold maxsize. lia.
Defined.

(** ** Facts about binary64 arithmetic *)

(** A timestamp that is a number: not NaN and not infinite. *)
Definition is_number (x : Float.t) : Prop :=
  match x with
  | S754_zero _ | S754_finite _ _ _ => True
  | _ => False
  end.

Lemma abs_binary_round (s : bool) (m : positive) (e : Z) :
  SFabs (binary_round Float.prec Float.emax s m e)
  = SFabs (binary_round Float.prec Float.emax false m e).
Proof.
  unfold binary_round. destruct (shl_align _ _ _) as [mz ez].
  unfold binary_round_aux. destruct (shr_fexp _ _ _ _ _) as [mrs' e'].
  destruct (shr_fexp _ _ _ _ _) as [mrs'' e''].
  destruct (shr_m mrs''); [reflexivity | | reflexivity].
  now destruct (_ <=? _).
Qed.

Lemma abs_binary_normalize_opp (n e : Z) :
  SFabs (binary_normalize Float.prec Float.emax (- n) e false)
  = SFabs (binary_normalize Float.prec Float.emax n e false).
Proof.
  destruct n as [| p | p]; cbn [Z.opp binary_normalize]; [reflexivity | |].
  - apply abs_binary_round.
  - symmetry. apply abs_binary_round.
Qed.

Lemma abs_sub_sym (x y : Float.t) :
  Float.abs (Float.sub x y) = Float.abs (Float.sub y x).
Proof.
  unfold Float.abs, Float.sub.
  destruct x as [sx | sx | | sx mx ex], y as [sy | sy | | sy my ey];
    try reflexivity;
    try (now destruct sx, sy).
  cbn [SFsub]. rewrite (Z.min_comm ey ex).
  rewrite <- abs_binary_normalize_opp. f_equal. f_equal. lia.
Qed.

Lemma sub_self (x : Float.t) :
  is_number x -> Float.sub x x = Float.zero.
Proof.
  unfold Float.sub, Float.zero.
  destruct x as [[] | | | s m e]; cbn [is_number SFsub];
    try contradiction; try reflexivity.
  intros _. now rewrite Z.sub_diag.
Qed.

Lemma leb_abs_nonneg (z d : Float.t) :
  Float.leb (Float.abs z) d = true -> Float.leb Float.zero d = true.
Proof.
  unfold Float.leb, Float.abs, Float.zero.
  destruct z as [sz | sz | | sz mz ez], d as [[] | [] | | [] md ed];
    cbn; congruence.
Qed.

Lemma leb_trans (a b c : Float.t) :
  Float.leb a b = true -> Float.leb b c = true -> Float.leb a c = true.
Proof.
  unfold Float.leb, SFleb.
  destruct a as [[] | [] | | [] ma ea], b as [[] | [] | | [] mb eb],
    c as [[] | [] | | [] mc ec];
    cbn [SFcompare]; try congruence;
    change (Pos.compare_cont Eq ma mb) with (ma ?= mb)%positive;
    change (Pos.compare_cont Eq mb mc) with (mb ?= mc)%positive;
    change (Pos.compare_cont Eq ma mc) with (ma ?= mc)%positive;
    destruct (Z.compare_spec ea eb), (Z.compare_spec eb ec),
      (Z.compare_spec ea ec);
    try lia; subst; cbn; try congruence;
    destruct (Pos.compare_spec ma mb), (Pos.compare_spec mb mc),
      (Pos.compare_spec ma mc);
    cbn; try congruence; lia.
Qed.

(** ** More on the comparison of frames *)

(** The second setting of the three parameters of [equals] compares no more
    strictly than the first. *)
Definition delta_relaxed (d d' : option Float.t) : Prop :=
  match d' with
  | None => True
  | Some b =>
      match d with
      | Some a => Float.leb a b = true
      | None => False
      end
  end.

Lemma equals_by_value_sym (x y : Message.t) d cc cd :
  Message.equals_by_value x y d cc cd = Message.equals_by_value y x d cc cd.
Proof.
  apply eq_true_iff_eq. rewrite !equals_by_value_iff.
  unfold attributes_match, timestamps_match.
  destruct d as [d |]; [rewrite (abs_sub_sym (Message.timestamp x)) |];
    intuition congruence.
Qed.

Lemma is_sym (x y : ref) : is_ x y = is_ y x.
Proof.
  apply eq_true_iff_eq. rewrite !is_true_iff. split; congruence.
Qed.

Lemma equals_distinct (σ : Message.store) x y mx my d cc cd :
  x <> y -> σ !! x = Some mx -> σ !! y = Some my ->
  Message.equals σ x y d cc cd
  = Some (Message.equals_by_value mx my d cc cd).
Proof.
  intros Hne Hx Hy. rewrite (equals_lookup _ _ _ _ _ _ _ _ Hx Hy).
  assert (His : is_ x y = false).
  { apply not_true_is_false. now rewrite is_true_iff. }
  now rewrite His.
Qed.

(** X6: [equals] is symmetric, for every setting of its parameters:
    [x.equals(y, ...)] and [y.equals(x, ...)] give the same answer, also
    under a timestamp tolerance. *)
Theorem equals_symmetric (σ : Message.store) x y d cc cd :
  Message.equals σ x y d cc cd = Message.equals σ y x d cc cd.
Proof.
  unfold Message.equals.
  destruct (σ !! x) as [mx |], (σ !! y) as [my |]; cbn; try reflexivity.
  f_equal. f_equal; [apply is_sym | apply equals_by_value_sym].
Qed.

(** X7: [x.equals(x, ...)] is true whatever the parameters and the
    attributes are. A second instance does not get this: when either
    timestamp is NaN, or both are the same infinity, two distinct instances
    are unequal under every tolerance, even with all attributes identical. *)
Theorem equals_identity_and_nan :
  (forall (σ : Message.store) x m d cc cd,
      σ !! x = Some m -> Message.equals σ x x d cc cd = Some true)
  /\ (forall (σ : Message.store) x y mx my d cc cd,
         x <> y -> σ !! x = Some mx -> σ !! y = Some my ->
         Message.timestamp mx = S754_nan
         \/ Message.timestamp my = S754_nan
         \/ (exists s, Message.timestamp mx = S754_infinity s
                       /\ Message.timestamp my = S754_infinity s) ->
         Message.equals σ x y (Some d) cc cd = Some false).
Proof.
  split.
  - intros σ x m d cc cd Hx. rewrite (equals_lookup _ _ _ _ _ _ _ _ Hx Hx).
    f_equal. apply orb_true_iff. left. now apply is_true_iff.
  - intros σ x y mx my d cc cd Hne Hx Hy Hts.
    rewrite (equals_distinct _ _ _ _ _ _ _ _ Hne Hx Hy). f_equal.
    apply not_true_is_false. rewrite equals_by_value_iff.
    intros [_ Ht]. unfold timestamps_match in Ht.
    unfold Float.leb, Float.abs, Float.sub in Ht.
    destruct Hts as [Hn | [Hn | (s & Hi & Hj)]].
    + rewrite Hn in Ht. discriminate Ht.
    + rewrite Hn in Ht. now destruct (Message.timestamp mx).
    + rewrite Hi, Hj in Ht. now destruct s.
Qed.

Lemma equals_identity_and_nan_witness :
  let σ : Message.store :=
    <[2%positive := frame_at S754_nan]>
      (<[1%positive := frame_at S754_nan]> ∅) in
  Message.equals σ 1%positive 1%positive Message.default_timestamp_delta
    true true = Some true
  /\ Message.equals σ 1%positive 2%positive Message.default_timestamp_delta
       true true = Some false.
Proof.
  intros σ. destruct equals_identity_and_nan as [Hrefl Hnan].
  assert (H1 : σ !! 1%positive = Some (frame_at S754_nan)) by reflexivity.
  assert (H2 : σ !! 2%positive = Some (frame_at S754_nan)) by reflexivity.
  assert (Hne : 1%positive <> 2%positive) by discriminate.
  split.
  - exact (Hrefl σ _ _ _ true true H1).
  - exact (Hnan σ _ _ _ _ Float.lit_1e_6 true true Hne H1 H2
             (or_introl eq_refl)).
Defined.

(** X8: a tolerance below zero, or NaN, makes every two distinct instances
    unequal. *)
Theorem equals_negative_delta (σ : Message.store) x y mx my d cc cd :
  x <> y -> σ !! x = Some mx -> σ !! y = Some my ->
  Float.leb Float.zero d = false ->
  Message.equals σ x y (Some d) cc cd = Some false.
Proof.
  intros Hne Hx Hy Hd.
  rewrite (equals_distinct _ _ _ _ _ _ _ _ Hne Hx Hy). f_equal.
  apply not_true_is_false. rewrite equals_by_value_iff.
  intros [_ Ht]. unfold timestamps_match in Ht.
  apply leb_abs_nonneg in Ht. congruence.
Qed.

Lemma equals_negative_delta_witness :
  Message.equals
    (<[2%positive := frame_at Float.zero]>
       (<[1%positive := frame_at Float.zero]> ∅))
    1%positive 2%positive (Some (SFopp Float.lit_1e_6)) true true
  = Some false.
Proof.
  apply (equals_negative_delta _ 1%positive 2%positive (frame_at Float.zero)
           (frame_at Float.zero));
    [discriminate | reflexivity | reflexivity | reflexivity].
Defined.

(** X9: relaxing a parameter of [equals] never turns an equal pair into an
    unequal one: a pair equal under a tolerance is equal under every larger
    tolerance and with timestamps left out, and stays equal when the channel
    or the direction is no longer compared. *)
Theorem equals_relaxed (σ : Message.store) x y d d' cc cc' cd cd' :
  Message.equals σ x y d cc cd = Some true ->
  delta_relaxed d d' ->
  (cc' = true -> cc = true) ->
  (cd' = true -> cd = true) ->
  Message.equals σ x y d' cc' cd' = Some true.
Proof.
  unfold Message.equals.
  destruct (σ !! x) as [mx |], (σ !! y) as [my |]; cbn; try discriminate.
  intros H Hd Hcc Hcd. f_equal. injection H as H.
  apply orb_true_iff in H. apply orb_true_iff.
  destruct H as [H | H]; [now left | right].
  apply equals_by_value_iff in H. apply equals_by_value_iff.
  destruct H as [Ha Ht]. split.
  - unfold attributes_match in *. intuition.
  - unfold timestamps_match in *. destruct d' as [b |]; [| exact I].
    destruct d as [a |]; [| contradiction].
    now apply (leb_trans _ a).
Qed.

Lemma equals_relaxed_witness :
  Message.equals two_frames 1%positive 2%positive None false false
  = Some true.
Proof.
  apply (equals_relaxed two_frames 1%positive 2%positive
           (Some Float.lit_1e_5) None true false true false);
    [reflexivity | exact I | discriminate | discriminate].
Defined.

(** ** Copies of a frame *)

(** [m] with the payload the constructor stores for it: none when [m] is a
    remote frame. *)
Definition without_remote_payload (m : Message.t) : Message.t :=
  Message.mk (Message.timestamp m) (Message.id m) (Message.is_extended_id m)
    (Message.is_remote_frame m) (Message.is_error_frame m)
    (Message.channel m) (Message.dlc m)
    (if Message.is_remote_frame m then [] else Message.data m)
    (Message.is_fd m) (Message.is_rx m) (Message.bitrate_switch m)
    (Message.error_state_indicator m).

Lemma copy_unfold (m : Message.t) :
  Message.__copy__ m = Ok (without_remote_payload m).
Proof.
  destruct m as [ts id ext rtr err ch dlc data fd rx brs esi].
  unfold Message.__copy__, Message.__init__, Message.init_data,
    without_remote_payload.
  cbn. now destruct rtr.
Qed.

Lemma without_remote_payload_id (m : Message.t) :
  (Message.is_remote_frame m = true -> Message.data m = []) ->
  without_remote_payload m = m.
Proof.
  intros H. destruct m as [ts id ext rtr err ch dlc data fd rx brs esi].
  unfold without_remote_payload. cbn in *.
  destruct rtr; [| reflexivity]. now rewrite H.
Qed.

Lemma init_remote_has_no_payload
    ts id ext rtr err ch dlc data fd rx brs esi check m :
  Message.__init__ ts id ext rtr err ch dlc data fd rx brs esi check = Ok m ->
  Message.is_remote_frame m = true -> Message.data m = [].
Proof.
  intros H. apply init_ok_inv in H as (b & Hb & -> & _). cbn.
  intros ->. rewrite init_data_empty in Hb by now right. congruence.
Qed.

(** X10: [__copy__] and [__deepcopy__] never fail and never validate: they
    return a frame with the attributes of the original, except that the
    copy of a remote frame has no payload. So the copy of a frame that the
    constructor returned is that same frame, attribute by attribute, a frame
    that breaks the rules is copied with its defects, and copying a copy
    changes nothing. *)
Theorem copy_returns (m : Message.t) :
  Message.__copy__ m = Ok (without_remote_payload m)
  /\ Message.__deepcopy__ m = Ok (without_remote_payload m)
  /\ Message.__copy__ (without_remote_payload m)
     = Ok (without_remote_payload m)
  /\ ((Message.is_remote_frame m = true -> Message.data m = []) ->
      Message.__copy__ m = Ok m)
  /\ forall ts id ext rtr err ch dlc data fd rx brs esi check,
       Message.__init__ ts id ext rtr err ch dlc data fd rx brs esi check
       = Ok m ->
       Message.__copy__ m = Ok m.
Proof.
  split; [apply copy_unfold |]. split; [apply copy_unfold |].
  split; [| split].
  - rewrite copy_unfold. f_equal. apply without_remote_payload_id.
    unfold without_remote_payload. cbn. now intros ->.
  - intros H. rewrite copy_unfold. f_equal.
    now apply without_remote_payload_id.
  - intros ts id ext rtr err ch dlc data fd rx brs esi check H.
    rewrite copy_unfold. f_equal. apply without_remote_payload_id.
    apply (init_remote_has_no_payload _ _ _ _ _ _ _ _ _ _ _ _ _ _ H).
Qed.

Lemma copy_returns_witness :
  Message.__copy__
    (Message.mk Float.zero 0x123 true false false None 3 [x01; x02; x03]
       false true false false)
  = Ok (Message.mk Float.zero 0x123 true false false None 3 [x01; x02; x03]
          false true false false).
Proof.
  apply (proj2 (proj2 (proj2 (proj2 (copy_returns _))))
           Float.zero 0x123 true false false None None
           (Some (data_ints [1; 2; 3])) false true false false true).
  reflexivity.
Defined.

Lemma copy_lookup (σ : Message.store) x m :
  σ !! x = Some m ->
  Message.copy σ x
  = Some (Ok (fresh (dom σ), <[fresh (dom σ) := without_remote_payload m]> σ)).
Proof.
  intros Hx. unfold Message.copy. rewrite Hx.
  change (Some (Message.new σ (Message.timestamp m) (Message.id m)
                  (Message.is_extended_id m) (Message.is_remote_frame m)
                  (Message.is_error_frame m) (Message.channel m)
                  (Some (Message.dlc m))
                  (Some (data_bytearray (Message.data m)))
                  (Message.is_fd m) (Message.is_rx m)
                  (Message.bitrate_switch m)
                  (Message.error_state_indicator m) false)
          = Some (Ok (fresh (dom σ),
                      <[fresh (dom σ) := without_remote_payload m]> σ))).
  f_equal. apply new_unfold. apply copy_unfold.
Qed.

(** X11: [copy.copy(x)] makes a new instance, distinct from [x] and from
    every instance there was, and leaves [x] as it is. The copy is never
    [==] to [x]. When [x] is not a remote frame that carries a payload, the
    copy equals [x] by value with timestamps left out, and under every
    tolerance that is not below zero when the timestamp of [x] is a number;
    the copy of a remote frame that carries a payload equals [x] under no
    setting of the parameters. *)
Theorem copy_instance (σ : Message.store) x m :
  σ !! x = Some m ->
  exists y,
    let σ' := <[y := without_remote_payload m]> σ in
    Message.copy σ x = Some (Ok (y, σ'))
    /\ σ !! y = None
    /\ σ' !! x = Some m
    /\ Message.eq x y = false
    /\ ((Message.is_remote_frame m = true -> Message.data m = []) ->
        Message.equals σ' x y None true true = Some true
        /\ forall d,
             is_number (Message.timestamp m) ->
             Float.leb Float.zero d = true ->
             Message.equals σ' x y (Some d) true true = Some true)
    /\ (Message.is_remote_frame m = true -> Message.data m <> [] ->
        forall d cc cd, Message.equals σ' x y d cc cd = Some false).
Proof.
  intros Hx. exists (fresh (dom σ)). cbn zeta.
  set (y := fresh (dom σ)).
  assert (Hy : σ !! y = None) by (apply not_elem_of_dom, is_fresh).
  assert (Hne : x <> y) by (intros ->; congruence).
  assert (Hx' : <[y := without_remote_payload m]> σ !! x = Some m)
    by now rewrite lookup_insert_ne.
  assert (Hy' : <[y := without_remote_payload m]> σ !! y
                = Some (without_remote_payload m))
    by apply lookup_insert_eq.
  split; [| split; [exact Hy | split; [exact Hx' | split; [| split]]]].
  - now apply copy_lookup.
  - rewrite eq_is_identity. apply not_true_is_false. now rewrite is_true_iff.
  - intros Hdata. rewrite (without_remote_payload_id m Hdata) in *.
    split.
    + rewrite (equals_distinct _ _ _ _ _ _ _ _ Hne Hx' Hy'). f_equal.
      apply equals_by_value_iff.
      split; [apply attributes_match_refl | exact I].
    + intros d Hnum Hd.
      rewrite (equals_distinct _ _ _ _ _ _ _ _ Hne Hx' Hy'). f_equal.
      apply equals_by_value_iff.
      split; [apply attributes_match_refl |].
      unfold timestamps_match. now rewrite (sub_self _ Hnum).
  - intros Hrtr Hdata d cc cd.
    rewrite (equals_distinct _ _ _ _ _ _ _ _ Hne Hx' Hy'). f_equal.
    apply not_true_is_false. rewrite equals_by_value_iff.
    intros [(_ & _ & _ & Hd & _) _]. apply Hdata. rewrite Hd.
    unfold without_remote_payload. cbn. now rewrite Hrtr.
Qed.

Lemma copy_instance_witness :
  exists y,
    Message.copy two_frames 1%positive
    = Some (Ok (y, <[y := frame_at Float.zero]> two_frames))
    /\ Message.eq 1%positive y = false
    /\ Message.equals (<[y := frame_at Float.zero]> two_frames) 1%positive y
         Message.default_timestamp_delta true true = Some true.
Proof.
  assert (H1 : two_frames !! 1%positive = Some (frame_at Float.zero))
    by reflexivity.
  destruct (copy_instance two_frames 1%positive _ H1)
    as (y & Hcopy & _ & _ & Heq & Hval & _).
  exists y. split; [exact Hcopy |]. split; [exact Heq |].
  refine (proj2 (Hval _) Float.lit_1e_6 I eq_refl).
  intros H. discriminate H.
Defined.

(** ** More on LIN messages *)

(** [x == y] holds. *)
Definition lin_equal (x y : LinMessage.t) : Prop :=
  LinMessage.__eq__ x (LinMessage.instance y) = EqBool true.

(** The slots that [==] compares agree. *)
Definition compared_slots_agree (x y : LinMessage.t) : Prop :=
  LinMessage.id x = LinMessage.id y
  /\ LinMessage.data x = LinMessage.data y
  /\ LinMessage.dlc x = LinMessage.dlc y
  /\ LinMessage.flags x = LinMessage.flags y
  /\ LinMessage.crc x = LinMessage.crc y
  /\ LinMessage.info x = LinMessage.info y.

(** The constructor called again on the attributes of [m], with [dlc] given
    or left out. *)
Definition rebuild (m : LinMessage.t) (with_dlc : bool)
  : result builtin_exn LinMessage.t :=
  LinMessage.__init__ (LinMessage.id m) (data_bytearray (LinMessage.data m))
    (if with_dlc then Some (LinMessage.dlc m) else None) (LinMessage.flags m)
    (LinMessage.timestamp m) (LinMessage.crc m) (LinMessage.info m).

Lemma lin_equal_iff (x y : LinMessage.t) :
  lin_equal x y <-> compared_slots_agree x y.
Proof.
  unfold lin_equal, compared_slots_agree, LinMessage.__eq__.
  rewrite eq_slots_are. cbn [forallb LinMessage.slot_eq].
  transitivity
    (((LinMessage.id x =? LinMessage.id y)
      && (bool_decide (LinMessage.data x = LinMessage.data y)
          && ((LinMessage.dlc x =? LinMessage.dlc y)
              && ((LinMessage.flags x =? LinMessage.flags y)
                  && (LinMessage.option_eqb Z.eqb (LinMessage.crc x)
                        (LinMessage.crc y)
                      && (LinMessage.option_eqb is_ (LinMessage.info x)
                            (LinMessage.info y) && true)))))) = true).
  - split; congruence.
  - rewrite !andb_true_iff, !Z.eqb_eq, bool_decide_eq_true.
    rewrite (option_eqb_true_iff Z.eqb) by apply Z.eqb_eq.
    rewrite (option_eqb_true_iff is_) by apply is_true_iff.
    tauto.
Qed.

(** X12: [==] on LIN messages is an equivalence: every message equals
    itself, whatever its timestamp, and the comparison is symmetric and
    transitive. [!=] is its negation. *)
Theorem lin_eq_equivalence :
  (forall x, lin_equal x x)
  /\ (forall x y, lin_equal x y -> lin_equal y x)
  /\ (forall x y z, lin_equal x y -> lin_equal y z -> lin_equal x z)
  /\ (forall x y, LinMessage.__ne__ x y = true <-> ~ lin_equal x y).
Proof.
  split; [| split; [| split]].
  - intros x. apply lin_equal_iff. unfold compared_slots_agree. tauto.
  - intros x y H. apply lin_equal_iff in H. apply lin_equal_iff.
    unfold compared_slots_agree in *. intuition congruence.
  - intros x y z Hxy Hyz. apply lin_equal_iff in Hxy, Hyz.
    apply lin_equal_iff. unfold compared_slots_agree in *.
    intuition congruence.
  - intros x y. unfold LinMessage.__ne__, lin_equal, LinMessage.__eq__.
    destruct (forallb _ _); cbn; split; congruence.
Qed.

Lemma lin_eq_equivalence_witness :
  lin_equal (LinMessage.mk 1 [x01] 1 0 None None None)
    (LinMessage.mk 1 [x01] 1 0 None None (Some S754_nan)).
Proof.
  apply (proj1 (proj2 lin_eq_equivalence)
           (LinMessage.mk 1 [x01] 1 0 None None (Some S754_nan))).
  reflexivity.
Defined.

Lemma index_cases (i : Z) :
  -7 <= i < 7 ->
  i = -7 \/ i = -6 \/ i = -5 \/ i = -4 \/ i = -3 \/ i = -2 \/ i = -1
  \/ i = 0 \/ i = 1 \/ i = 2 \/ i = 3 \/ i = 4 \/ i = 5 \/ i = 6.
Proof. lia. Qed.

Ltac each_index H :=
  apply index_cases in H;
  repeat (destruct H as [H | H]; [subst |]); [.. | subst].

Lemma slots_getitem_out (i : Z) :
  ~ (-7 <= i < 7) ->
  LinMessage.tuple_getitem LinMessage.__slots__ i = Raise LinMessage.IndexError.
Proof.
  intros H. unfold LinMessage.tuple_getitem.
  change (len LinMessage.__slots__) with 7.
  destruct (Z.ltb_spec i 0) as [Hneg | Hpos].
  - destruct (Z.leb_spec 0 (i + 7)), (Z.ltb_spec (i + 7) 7);
      cbn; try reflexivity; lia.
  - destruct (Z.leb_spec 0 i), (Z.ltb_spec i 7);
      cbn; try reflexivity; lia.
Qed.

Lemma slots_getitem_in (i : Z) :
  -7 <= i < 7 ->
  exists s,
    LinMessage.tuple_getitem LinMessage.__slots__ i = Ok s
    /\ LinMessage.__slots__ !! Z.to_nat (i mod 7) = Some s.
Proof.
  intros H. each_index H; eexists; split; reflexivity.
Qed.

Lemma getitem_unfold (m : LinMessage.t) (i : Z) (s : LinMessage.slot) :
  LinMessage.tuple_getitem LinMessage.__slots__ i = Ok s ->
  LinMessage.__getitem__ m i = Ok (LinMessage.getattr m s).
Proof. intros H. unfold LinMessage.__getitem__. now rewrite H. Qed.

(** X13: [m[i]] for an integer [i] from -7 to 6 is the value that iteration
    over [m] yields at position [i mod 7], so [m[-1]] is the timestamp and
    [m[i - 7]] is [m[i]]; every other integer raises [IndexError]. Iteration
    yields the seven slots, in the order id, data, dlc, flags, crc, info,
    timestamp. *)
Theorem lin_getitem_iter (m : LinMessage.t) (i : Z) :
  (-7 <= i < 7 ->
   exists v,
     LinMessage.__getitem__ m i = Ok v
     /\ LinMessage.__iter__ m !! Z.to_nat (i mod 7) = Some v)
  /\ (~ (-7 <= i < 7) ->
      LinMessage.__getitem__ m i = Raise LinMessage.IndexError)
  /\ LinMessage.__iter__ m
     = [LinMessage.getattr m LinMessage.slot_id;
        LinMessage.getattr m LinMessage.slot_data;
        LinMessage.getattr m LinMessage.slot_dlc;
        LinMessage.getattr m LinMessage.slot_flags;
        LinMessage.getattr m LinMessage.slot_crc;
        LinMessage.getattr m LinMessage.slot_info;
        LinMessage.getattr m LinMessage.slot_timestamp].
Proof.
  split; [| split; [| reflexivity]].
  - intros H. destruct (slots_getitem_in i H) as (s & Hs & Hnth).
    exists (LinMessage.getattr m s). split; [now apply getitem_unfold |].
    unfold LinMessage.__iter__. rewrite list_lookup_fmap, Hnth. reflexivity.
  - intros H. unfold LinMessage.__getitem__.
    now rewrite (slots_getitem_out i H).
Qed.

Lemma lin_getitem_iter_witness :
  exists v,
    LinMessage.__getitem__
      (LinMessage.mk 1 [x01] 1 0 None None (Some Float.zero)) (-1) = Ok v
    /\ LinMessage.__iter__
         (LinMessage.mk 1 [x01] 1 0 None None (Some Float.zero))
       !! Z.to_nat (-1 mod 7) = Some v.
Proof.
  apply (proj1 (lin_getitem_iter _ (-1))). lia.
Defined.

Lemma getattr_inj (x y : LinMessage.t) :
  (forall s, In s LinMessage._eq_slots ->
             LinMessage.getattr x s = LinMessage.getattr y s)
  <-> compared_slots_agree x y.
Proof.
  unfold compared_slots_agree. rewrite eq_slots_are. split.
  - intros H.
    assert (H1 := H LinMessage.slot_id ltac:(cbn; tauto)).
    assert (H2 := H LinMessage.slot_data ltac:(cbn; tauto)).
    assert (H3 := H LinMessage.slot_dlc ltac:(cbn; tauto)).
    assert (H4 := H LinMessage.slot_flags ltac:(cbn; tauto)).
    assert (H5 := H LinMessage.slot_crc ltac:(cbn; tauto)).
    assert (H6 := H LinMessage.slot_info ltac:(cbn; tauto)).
    cbn in H1, H2, H3, H4, H5, H6.
    destruct (LinMessage.crc x), (LinMessage.crc y), (LinMessage.info x),
      (LinMessage.info y);
      cbn in H5, H6; repeat split; congruence.
  - intros (H1 & H2 & H3 & H4 & H5 & H6) s Hs.
    destruct s; cbn; try congruence.
    cbn in Hs. exfalso. intuition discriminate.
Qed.

(** X14: two LIN messages are [==] exactly when their items at the
    positions 0 to 5 agree, that is when iteration yields the same first six
    values; the item at position 6, the timestamp, plays no part. *)
Theorem lin_eq_items (x y : LinMessage.t) :
  (lin_equal x y
   <-> forall i, 0 <= i < 6 ->
         LinMessage.__getitem__ x i = LinMessage.__getitem__ y i)
  /\ (lin_equal x y
      <-> take 6 (LinMessage.__iter__ x) = take 6 (LinMessage.__iter__ y)).
Proof.
  rewrite lin_equal_iff, <- getattr_inj, eq_slots_are. split; split.
  - intros H i Hi.
    assert (Hc : i = 0 \/ i = 1 \/ i = 2 \/ i = 3 \/ i = 4 \/ i = 5) by lia.
    destruct Hc as [-> | [-> | [-> | [-> | [-> | ->]]]]];
      erewrite !getitem_unfold by reflexivity; f_equal; apply H; cbn; tauto.
  - intros H s Hs. cbn in Hs.
    assert (Hok : forall i s,
               0 <= i < 6 ->
               LinMessage.tuple_getitem LinMessage.__slots__ i = Ok s ->
               LinMessage.getattr x s = LinMessage.getattr y s).
    { intros i s' Hi Hs'. specialize (H i Hi).
      rewrite !(getitem_unfold _ _ _ Hs') in H. congruence. }
    destruct Hs as [<- | [<- | [<- | [<- | [<- | [<- | []]]]]]].
    + apply (Hok 0); [lia | reflexivity].
    + apply (Hok 1); [lia | reflexivity].
    + apply (Hok 2); [lia | reflexivity].
    + apply (Hok 3); [lia | reflexivity].
    + apply (Hok 4); [lia | reflexivity].
    + apply (Hok 5); [lia | reflexivity].
  - intros H. unfold LinMessage.__iter__, LinMessage.__slots__.
    cbn [map firstn].
    rewrite (H LinMessage.slot_id), (H LinMessage.slot_data),
      (H LinMessage.slot_dlc), (H LinMessage.slot_flags),
      (H LinMessage.slot_crc), (H LinMessage.slot_info) by (cbn; tauto).
    reflexivity.
  - intros H s Hs. unfold LinMessage.__iter__, LinMessage.__slots__ in H.
    cbn [map firstn] in H. cbn in Hs. injection H as H1 H2 H3 H4 H5 H6.
    destruct Hs as [<- | [<- | [<- | [<- | [<- | [<- | []]]]]]];
      cbn; congruence.
Qed.

Lemma setattr_getattr (m m' : LinMessage.t) (s : LinMessage.slot)
    (v : LinMessage.value) :
  LinMessage.setattr m s v = Some m' ->
  LinMessage.getattr m' s = v
  /\ forall s', s' <> s -> LinMessage.getattr m' s' = LinMessage.getattr m s'.
Proof.
  destruct s, v; cbn; try discriminate;
    intros H; injection H as <-; (split; [reflexivity |]);
    intros s' Hs'; destruct s'; try reflexivity; now destruct Hs'.
Qed.

Lemma setattr_same (m : LinMessage.t) (s : LinMessage.slot) :
  LinMessage.setattr m s (LinMessage.getattr m s) = Some m.
Proof.
  destruct m as [id data dlc flags [crc |] [info |] [ts |]], s; reflexivity.
Qed.

(** X15: assignment by position, for a value of the kind the slot holds.
    [m[i] = v] raises [IndexError] exactly for the integers outside -7..6.
    After it, [m[i]] is [v] and the item at every position that names
    another slot is what it was: assigning [dlc] or [data] does not adjust
    the other. Assigning to a position the value it already holds changes
    nothing. *)
Theorem lin_setitem_getitem (m : LinMessage.t) (i : Z) (v : LinMessage.value) :
  (LinMessage.__setitem__ m i v = Raise LinMessage.IndexError
   <-> ~ (-7 <= i < 7))
  /\ (forall m',
         LinMessage.__setitem__ m i v = Ok (Some m') ->
         LinMessage.__getitem__ m' i = Ok v
         /\ forall j,
              LinMessage.tuple_getitem LinMessage.__slots__ j
              <> LinMessage.tuple_getitem LinMessage.__slots__ i ->
              LinMessage.__getitem__ m' j = LinMessage.__getitem__ m j)
  /\ (forall w,
         LinMessage.__getitem__ m i = Ok w ->
         LinMessage.__setitem__ m i w = Ok (Some m)).
Proof.
  unfold LinMessage.__setitem__, LinMessage.__getitem__.
  destruct (LinMessage.tuple_getitem LinMessage.__slots__ i) as [s | []] eqn:E.
  - assert (Hin : -7 <= i < 7).
    { destruct (Z_le_dec (-7) i), (Z_lt_dec i 7); try lia;
        rewrite slots_getitem_out in E by lia; discriminate E. }
    cbn. split; [| split].
    + split; [discriminate | intros H; now destruct H].
    + intros m' H. injection H as H.
      destruct (setattr_getattr _ _ _ _ H) as [Hv Hother].
      split; [now rewrite Hv |].
      intros j Hj.
      destruct (LinMessage.tuple_getitem LinMessage.__slots__ j) as [s' | e];
        [| reflexivity].
      cbn. f_equal. apply Hother. congruence.
    + intros w H. injection H as <-. now rewrite setattr_same.
  - assert (Hout : ~ (-7 <= i < 7)).
    { intros H. destruct (slots_getitem_in i H) as (s & Hs & _). congruence. }
    cbn. split; [| split].
    + split; [intros _; exact Hout | reflexivity].
    + discriminate.
    + discriminate.
Qed.

Lemma lin_setitem_getitem_witness :
  LinMessage.__getitem__
    (LinMessage.mk 1 [x01; x02] 5 0 None None None) 2 = Ok (LinMessage.v_int 5)
  /\ LinMessage.__getitem__
       (LinMessage.mk 1 [x01; x02] 5 0 None None None) 1
     = LinMessage.__getitem__
         (LinMessage.mk 1 [x01; x02] 2 0 None None None) 1.
Proof.
  assert (H : LinMessage.__setitem__
                (LinMessage.mk 1 [x01; x02] 2 0 None None None) 2
                (LinMessage.v_int 5)
              = Ok (Some (LinMessage.mk 1 [x01; x02] 5 0 None None None)))
    by reflexivity.
  destruct (proj1 (proj2 (lin_setitem_getitem _ _ _)) _ H) as [Hget Hother].
  split; [exact Hget |]. apply Hother. discriminate.
Defined.

Lemma lin_init_raise id data dlc flags ts crc info e :
  LinMessage.__init__ id data dlc flags ts crc info = Raise e
  <-> bytearray_of data = Raise e.
Proof.
  destruct (bytearray_of data) as [b | e'] eqn:E.
  - rewrite (lin_init_unfold _ _ _ _ _ _ _ _ E). split; discriminate.
  - unfold LinMessage.__init__. rewrite E. cbn.
    split; intros H; injection H as ->; reflexivity.
Qed.

(** X16: the LIN constructor fails exactly when [bytearray(data)] does, and
    with that exception as it is, whatever the other arguments: a
    [TypeError] for a value that cannot be converted, a [ValueError] for a
    list of integers with one outside 0..255 and for a negative integer
    count, an [OverflowError] for an integer count outside the index type, a
    [MemoryError] for a count that cannot be allocated. It returns for every
    payload that converts; no [dlc], however large or negative, makes it
    fail. *)
Theorem lin_init_errors id data dlc flags ts crc info :
  let construct := LinMessage.__init__ id data dlc flags ts crc info in
  (forall e, construct = Raise e <-> bytearray_of data = Raise e)
  /\ (construct = Raise BuiltinTypeError <-> data = data_invalid)
  /\ (construct = Raise BuiltinValueError <-> conversion_ValueError data)
  /\ (construct = Raise BuiltinOverflowError
      <-> conversion_OverflowError data)
  /\ (construct = Raise BuiltinMemoryError <-> conversion_MemoryError data)
  /\ ((exists m, construct = Ok m) <-> exists b, bytearray_of data = Ok b).
Proof.
  intros construct. subst construct.
  split; [intros e; apply lin_init_raise |].
  rewrite !lin_init_raise.
  destruct (bytearray_of_errors data) as (Ht & Hv & Ho & Hm).
  split; [exact Ht |]. split; [exact Hv |]. split; [exact Ho |].
  split; [exact Hm |].
  destruct (bytearray_of data) as [b | e] eqn:E.
  - rewrite (lin_init_unfold _ _ _ _ _ _ _ _ E). split; eauto.
  - split.
    + intros [m Hm'].
      assert (Hr : LinMessage.__init__ id data dlc flags ts crc info
                   = Raise e) by now apply lin_init_raise.
      congruence.
    + intros [b Hb]. discriminate Hb.
Qed.

Lemma lin_init_errors_witness :
  LinMessage.with_defaults 1 (data_ints [0; -1]) (Some 100)
  = Raise BuiltinValueError
  /\ LinMessage.with_defaults 1 (data_int (-1) true) None
     = Raise BuiltinValueError
  /\ LinMessage.with_defaults 1 (data_int (2 ^ 70) true) None
     = Raise BuiltinOverflowError.
Proof.
  split; [| split].
  - apply (proj1 (proj2 (proj2 (lin_init_errors 1 (data_ints [0; -1])
                                  (Some 100) 0 None None None)))).
    left. exists [0; -1]. split; [reflexivity |].
    exists (-1). split; [right; now left | lia].
  - apply (proj1 (proj2 (proj2 (lin_init_errors 1 (data_int (-1) true) None
                                  0 None None None)))).
    right. exists (-1), true. split; [reflexivity |]. unfold maxsize. lia.
  - apply (proj1 (proj2 (proj2 (proj2
             (lin_init_errors 1 (data_int (2 ^ 70) true) None 0 None None
                None))))).
    exists (2 ^ 70), true. split; [reflexivity |].
    right. unfold maxsize. lia.
Defined.

Lemma dlc_of_len_in_ladder (n : Z) : 0 <= n -> In (LinMessage.dlc_of_len n) ladder.
Proof.
  intros H. unfold LinMessage.dlc_of_len, ladder.
  repeat match goal with
         | |- context [?a <=? ?b] => destruct (Z.leb_spec a b)
         end; cbn; lia.
Qed.

Lemma dlc_of_len_big (n : Z) : 64 < n -> LinMessage.dlc_of_len n = 64.
Proof.
  intros H. unfold LinMessage.dlc_of_len.
  repeat match goal with
         | |- context [?a <=? ?b] => destruct (Z.leb_spec a b)
         end; lia.
Qed.

Lemma dlc_of_len_max (n : Z) :
  0 <= n ->
  LinMessage.dlc_of_len (Z.max n (LinMessage.dlc_of_len n))
  = LinMessage.dlc_of_len n.
Proof.
  intros H.
  destruct (Z_le_dec n 64) as [Hle | Hgt].
  - pose proof (dlc_of_len_ge n Hle) as Hge.
    rewrite Z.max_r by lia.
    pose proof (dlc_of_len_in_ladder n H) as Hin.
    unfold ladder in Hin. cbn in Hin.
    repeat (destruct Hin as [<- | Hin]; [reflexivity |]).
    contradiction.
  - rewrite (dlc_of_len_big n) by lia. rewrite Z.max_l by lia.
    apply dlc_of_len_big. lia.
Qed.

(** X17: built without [dlc] from a payload of any length, a LIN message has
    a [dlc] on the ladder, at most 64, and a stored payload of
    [max(len(data), dlc)] bytes. The payload has exactly [dlc] bytes when no
    more than 64 were supplied; from 65 bytes on, [dlc] stays 64 and the
    payload is stored whole, longer than [dlc]. *)
Theorem lin_init_without_dlc_any_length id data b flags ts crc info :
  bytearray_of data = Ok b ->
  exists m,
    LinMessage.__init__ id data None flags ts crc info = Ok m
    /\ In (LinMessage.dlc m) ladder
    /\ len (LinMessage.data m) = Z.max (len b) (LinMessage.dlc m)
    /\ (len (LinMessage.data m) = LinMessage.dlc m <-> len b <= 64)
    /\ (len b > 64 -> LinMessage.dlc m = 64 /\ LinMessage.data m = b).
Proof.
  intros Hb. eexists. split; [apply (lin_init_unfold _ _ _ _ _ _ _ _ Hb) |].
  cbn zeta. cbn [LinMessage.dlc LinMessage.data].
  pose proof (len_nonneg b) as H0.
  split; [now apply dlc_of_len_in_ladder |].
  destruct (Z_le_dec (len b) 64) as [Hle | Hgt].
  - pose proof (dlc_of_len_ge _ Hle) as Hge.
    destruct (Z.gtb_spec (LinMessage.dlc_of_len (len b)) (len b));
      rewrite ?len_extend_zeros; repeat split; try lia.
  - rewrite dlc_of_len_big by lia.
    destruct (Z.gtb_spec 64 (len b)); [lia |].
    repeat split; try lia.
Qed.

Lemma lin_init_without_dlc_any_length_witness :
  exists m,
    LinMessage.with_defaults 1 (data_bytes (repeat x00 65)) None = Ok m
    /\ LinMessage.dlc m = 64
    /\ LinMessage.data m = repeat x00 65.
Proof.
  assert (Hb : bytearray_of (data_bytes (repeat x00 65))
               = Ok (repeat x00 65)) by reflexivity.
  destruct (lin_init_without_dlc_any_length 1 _ _ 0 None None None Hb)
    as (m & Hm & _ & _ & _ & Hbig).
  exists m. split; [exact Hm |]. apply Hbig. reflexivity.
Defined.

(** X18: a LIN message that the constructor returned is reproduced by the
    constructor: called again on the attributes of the message, with its
    [dlc] given, it returns the same message, padding nothing more; and when
    the message was built without [dlc], also with [dlc] left out again. *)
Theorem lin_rebuild id data dlc flags ts crc info m :
  LinMessage.__init__ id data dlc flags ts crc info = Ok m ->
  rebuild m true = Ok m
  /\ (dlc = None -> rebuild m false = Ok m).
Proof.
  intros H.
  destruct (bytearray_of data) as [b | e] eqn:Hb;
    [| apply (lin_init_raise id data dlc flags ts crc info) in Hb;
       congruence].
  rewrite (lin_init_unfold _ _ _ _ _ _ _ _ Hb) in H. injection H as <-.
  pose proof (len_nonneg b) as H0.
  unfold rebuild. split.
  - rewrite (lin_init_unfold _ (data_bytearray _) _ _ _ _ _ _ eq_refl).
    f_equal. destruct dlc as [d |]; cbn zeta;
      cbn [LinMessage.dlc LinMessage.data LinMessage.id LinMessage.flags
           LinMessage.crc LinMessage.info LinMessage.timestamp].
    + destruct (Z.leb_spec d 8); [| reflexivity].
      rewrite extend_zeros_nop; [reflexivity |].
      rewrite len_extend_zeros. lia.
    + destruct (Z.leb_spec (LinMessage.dlc_of_len (len b)) 8);
        [| reflexivity].
      rewrite extend_zeros_nop; [reflexivity |].
      destruct (Z.gtb_spec (LinMessage.dlc_of_len (len b)) (len b));
        rewrite ?len_extend_zeros; lia.
  - intros ->.
    rewrite (lin_init_unfold _ (data_bytearray _) _ _ _ _ _ _ eq_refl).
    f_equal. cbn zeta.
    cbn [LinMessage.dlc LinMessage.data LinMessage.id LinMessage.flags
         LinMessage.crc LinMessage.info LinMessage.timestamp].
    assert (Hlen : len (if LinMessage.dlc_of_len (len b) >? len b
                        then LinMessage.extend_zeros b
                               (LinMessage.dlc_of_len (len b))
                        else b)
                   = Z.max (len b) (LinMessage.dlc_of_len (len b))).
    { destruct (Z.gtb_spec (LinMessage.dlc_of_len (len b)) (len b));
        rewrite ?len_extend_zeros; lia. }
    rewrite Hlen, dlc_of_len_max by assumption.
    destruct (Z.gtb_spec (LinMessage.dlc_of_len (len b))
                (Z.max (len b) (LinMessage.dlc_of_len (len b))));
      [lia | reflexivity].
Qed.

Lemma lin_rebuild_witness :
  rebuild
    (LinMessage.mk 1
       [x01; x02; x03; x04; x05; x06; x07; x08; x09; x00; x00; x00] 12 0 None
       None None) false
  = Ok (LinMessage.mk 1
          [x01; x02; x03; x04; x05; x06; x07; x08; x09; x00; x00; x00] 12 0
          None None None).
Proof.
  apply (proj2 (lin_rebuild 1 (data_ints one_to_nine) None 0 None None None _
                  eq_refl)).
  reflexivity.
Defined.

(** ** An explicit dlc on a frame *)

(** X19: a frame never pads or cuts its payload to [dlc]. For a frame that
    is not remote, the constructor without [check] stores the payload as
    converted and the [dlc] as given, whether or not they agree; with
    [check], a [dlc] other than the payload length always ends in a
    validation error. *)
Theorem init_explicit_dlc ts id ext err ch d data b fd rx brs esi :
  Message.init_data (Some data) false = Ok b ->
  (exists m,
      Message.__init__ ts id ext false err ch (Some d) (Some data) fd rx brs
        esi false = Ok m
      /\ Message.data m = b /\ Message.dlc m = d)
  /\ (d <> len b ->
      raises_validation
        (Message.__init__ ts id ext false err ch (Some d) (Some data) fd rx
           brs esi true)).
Proof.
  intros Hb. split.
  - eexists. rewrite (init_unfold _ _ _ _ _ _ _ _ _ _ _ _ _ _ Hb).
    split; [reflexivity |]. split; reflexivity.
  - intros Hd. rewrite (init_unfold _ _ _ _ _ _ _ _ _ _ _ _ _ _ Hb).
    cbn zeta.
    destruct (check_ok_or_validation
                (Message.mk ts id ext false err ch d b fd rx brs esi))
      as [Hok | [r Hr]].
    + apply check_ok_iff_well_formed in Hok.
      destruct Hok as (_ & _ & _ & Hlen & _). cbn in Hlen. congruence.
    + rewrite Hr. exists r. reflexivity.
Qed.

Lemma init_explicit_dlc_witness :
  (exists m,
      Message.with_defaults 0x123 (Some 8) (Some (data_ints [1; 2; 3])) false
      = Ok m
      /\ Message.data m = [x01; x02; x03] /\ Message.dlc m = 8)
  /\ raises_validation
       (Message.with_defaults 0x123 (Some 8) (Some (data_ints [1; 2; 3]))
          true).
Proof.
  assert (Hb : Message.init_data (Some (data_ints [1; 2; 3])) false
               = Ok [x01; x02; x03]) by reflexivity.
  destruct (init_explicit_dlc Float.zero 0x123 true false None 8 _ _ false
              true false false Hb) as [Hstore Hcheck].
  split; [exact Hstore |]. apply Hcheck. discriminate.
Defined.

(** ** ValueError at construction *)

(** A constructor call ends in an exception of class [ValueError]. *)
Definition raises_ValueError {A} (x : result Message.exn A) : Prop :=
  exists e, x = Raise e /\ Message.class_of e = Message.class_ValueError.

Lemma raises_ValueError_iff {A} (x : result Message.exn A) :
  raises_ValueError x
  <-> raises_validation x \/ x = Raise (Message.Uncaught BuiltinValueError).
Proof.
  unfold raises_ValueError, raises_validation. split.
  - intros (e & -> & He). destruct e as [| r | []]; try discriminate He.
    + left. now exists r.
    + now right.
  - intros [[r ->] | ->]; eexists; split; reflexivity.
Qed.

(** C1: the constructor raises a [ValueError] when [check] is set and the
    frame it has built breaks one of the invariants, as the claim and the
    docstring have it, but also, whatever [check] is, when the payload of a
    frame that is not remote makes [bytearray()] raise one: a list of
    integers with one outside 0..255, or a negative integer count. The
    [except TypeError] clause does not catch it. So [Message(data=[1, 256])]
    raises [ValueError] with [check] left out. *)
Theorem init_value_error
    ts id ext rtr err ch dlc data fd rx brs esi check :
  let construct :=
    Message.__init__ ts id ext rtr err ch dlc data fd rx brs esi in
  (raises_ValueError (construct check)
   <-> (check = true
        /\ exists m, construct false = Ok m /\ invariant_violated m)
       \/ (rtr = false
           /\ exists d, data = Some d /\ conversion_ValueError d))
  /\ Message.__init__ Float.zero 0 true false false None None
       (Some (data_ints [1; 256])) false true false false false
     = Raise (Message.Uncaught BuiltinValueError)
  /\ raises_ValueError
       (Message.__init__ Float.zero 0 true false false None None
          (Some (data_ints [1; 256])) false true false false false).
Proof.
  intros construct. subst construct. split; [| split].
  - rewrite raises_ValueError_iff.
    rewrite (proj1 (init_validation_error_iff ts id ext rtr err ch dlc data fd
                      rx brs esi check)).
    rewrite init_raise_iff by discriminate. rewrite init_data_raise.
    rewrite (payload_iff _ conversion_ValueError); [reflexivity |].
    intros d. apply (proj1 (proj2 (bytearray_of_errors d))).
  - reflexivity.
  - eexists. split; reflexivity.
Qed.

(** ** The builtin len on a frame *)

(** C9, as the code has it: the method [__len__] returns the [dlc]
    attribute, not the length of the payload, and [len(m)] returns it
    whenever it is a length, from 0 to [sys.maxsize], as it is for every
    frame that passed validation. For a negative [dlc], which the unchecked
    constructor accepts, [len(m)] raises [ValueError], and above
    [sys.maxsize] [OverflowError]. A remote frame built with a positive
    [dlc] has that length, which is not zero, although its payload is
    empty. *)
Theorem len_returns_dlc :
  (forall m, Message.__len__ m = Message.dlc m)
  /\ (forall m, 0 <= Message.dlc m <= maxsize ->
                Message.builtin_len m = Ok (Message.dlc m))
  /\ (forall m, Message.dlc m < 0 ->
                Message.builtin_len m = Raise BuiltinValueError)
  /\ (forall m, maxsize < Message.dlc m ->
                Message.builtin_len m = Raise BuiltinOverflowError)
  /\ (forall ts id ext rtr err ch dlc data fd rx brs esi m,
         Message.__init__ ts id ext rtr err ch dlc data fd rx brs esi true
         = Ok m ->
         Message.builtin_len m = Ok (Message.dlc m))
  /\ forall ts id ext err ch d data fd rx brs esi,
       0 < d <= maxsize ->
       exists m,
         Message.__init__ ts id ext true err ch (Some d) data fd rx brs esi
           false = Ok m
         /\ Message.builtin_len m = Ok d
         /\ d <> 0
         /\ Message.data m = []
         /\ len (Message.data m) = 0.
Proof.
  assert (Hlen : forall m, 0 <= Message.dlc m <= maxsize ->
                           Message.builtin_len m = Ok (Message.dlc m)).
  { intros m H. unfold Message.builtin_len, Message.__len__. cbn zeta.
    destruct (Z.ltb_spec (Message.dlc m) 0); [lia |].
    destruct (Z.gtb_spec (Message.dlc m) maxsize); [lia | reflexivity]. }
  split; [reflexivity |]. split; [exact Hlen |].
  split; [| split; [| split]].
  - intros m H. unfold Message.builtin_len, Message.__len__. cbn zeta.
    destruct (Z.ltb_spec (Message.dlc m) 0); [reflexivity | lia].
  - intros m H. unfold Message.builtin_len, Message.__len__. cbn zeta.
    assert (0 < maxsize) by reflexivity.
    destruct (Z.ltb_spec (Message.dlc m) 0); [lia |].
    destruct (Z.gtb_spec (Message.dlc m) maxsize); [reflexivity | lia].
  - intros ts id ext rtr err ch dlc data fd rx brs esi m H.
    apply init_ok_inv in H as (b & _ & _ & Hc). specialize (Hc eq_refl).
    apply check_ok_iff_well_formed in Hc. destruct Hc as (_ & _ & Hdlc & _).
    apply Hlen. assert (64 <= maxsize) by (unfold maxsize; lia).
    destruct (Message.is_fd m); lia.
  - intros ts id ext err ch d data fd rx brs esi Hd.
    eexists. split.
    + rewrite (init_unfold _ _ _ _ _ _ _ _ _ _ _ _ _ []).
      * reflexivity.
      * apply init_data_empty. now right.
    + split; [apply Hlen; cbn; lia |]. repeat split. lia.
Qed.

Lemma len_returns_dlc_witness :
  exists m,
    Message.__init__ Float.zero 0x123 true true false None (Some 8) None
      false true false false false = Ok m
    /\ Message.builtin_len m = Ok 8
    /\ Message.data m = [].
Proof.
  assert (H8 : 0 < 8 <= maxsize) by (unfold maxsize; lia).
  destruct (proj2 (proj2 (proj2 (proj2 (proj2 len_returns_dlc))))
              Float.zero 0x123 true false None 8 None false true false false
              H8) as (m & Hm & Hlen & _ & Hdata & _).
  exists m. repeat split; assumption.
Defined.

(** C9, as stated, fails: the frame [Message(dlc=-1)] is built, and [len] of
    it does not return its [dlc] but raises [ValueError]. *)
Lemma len_returns_dlc_counterexample :
  exists m,
    Message.with_defaults 0 (Some (-1)) None false = Ok m
    /\ Message.dlc m = -1
    /\ Message.builtin_len m = Raise BuiltinValueError
    /\ Message.builtin_len m <> Ok (Message.dlc m).
Proof.
  eexists. split; [reflexivity |]. split; [reflexivity |].
  split; [reflexivity | discriminate].
Qed.
